(** * Workout API: the CRUD handlers of the three routers

    A shallow embedding of [workout_api/categorias/controllers.py],
    [workout_api/centro_treinamento/controllers.py] and
    [workout_api/atleta/controllers.py].  The relational store is an explicit
    value threaded through every handler; exceptions are the results of a
    small state-and-exception monad. *)

From Stdlib Require Import ZArith NArith List String Ascii Bool Lia Floats.
Import ListNotations.
Local Open Scope string_scope.
Local Open Scope Z_scope.

(** ** Values *)

(** [uuid.UUID]: the 128-bit integer of the identifier. *)
Definition UUID4 := N.

(** [datetime]: microseconds since the epoch. *)
Definition datetime := Z.

Definition hex_digit (n : N) : ascii :=
  match n with
  | 0%N => "0" | 1%N => "1" | 2%N => "2" | 3%N => "3"
  | 4%N => "4" | 5%N => "5" | 6%N => "6" | 7%N => "7"
  | 8%N => "8" | 9%N => "9" | 10%N => "a" | 11%N => "b"
  | 12%N => "c" | 13%N => "d" | 14%N => "e" | _ => "f"
  end%char.

(** The [k] hex digits of [n] that end at bit [4 * lo], most significant
    first. *)
Fixpoint hex_field (k : nat) (lo : N) (n : N) : string :=
  match k with
  | O => EmptyString
  | S k' =>
      String (hex_digit (N.land (N.shiftr n (4 * (lo + N.of_nat k'))) 15))
             (hex_field k' lo n)
  end.

(** [str(uuid)], the text an f-string puts in a message: 8-4-4-4-12 hex
    digits. *)
Definition str_uuid (u : UUID4) : string :=
  hex_field 8 24 u ++ "-" ++ hex_field 4 20 u ++ "-" ++ hex_field 4 16 u
    ++ "-" ++ hex_field 4 12 u ++ "-" ++ hex_field 12 0 u.

(** [sub in s] on Python strings. *)
Fixpoint includes (sub s : string) : bool :=
  prefix sub s ||
  match s with
  | EmptyString => false
  | String _ s' => includes sub s'
  end.

(** ** Status codes and exceptions *)

Definition HTTP_200_OK : Z := 200.
Definition HTTP_201_CREATED : Z := 201.
Definition HTTP_204_NO_CONTENT : Z := 204.
Definition HTTP_303_SEE_OTHER : Z := 303.
Definition HTTP_400_BAD_REQUEST : Z := 400.
Definition HTTP_404_NOT_FOUND : Z := 404.

(** The exceptions a handler can meet: FastAPI's [HTTPException],
    SQLAlchemy's [IntegrityError] and [InvalidRequestError], pydantic's
    [ValidationError]. *)
Inductive exn : Type :=
| HTTPException (status_code : Z) (detail : string)
| IntegrityError
| InvalidRequestError
| ValidationError.

Inductive outcome (A : Type) : Type :=
| Return (a : A)
| Raise (e : exn).
Arguments Return {A} a.
Arguments Raise {A} e.


(** ** Schemas and tables

    Each Python class is a record in a module of its own, so that fields keep
    their names: [CategoriaModel.nome], [AtletaIn.cpf], ... *)

(** Modelled from the spec: [categorias/schemas.py] and [categorias/models.py]
    are absent.  A category is its [nome]; the output shape adds the external
    [id]; the table row adds the internal key [pk_id]. *)
Module CategoriaIn.
Record t : Type := mk { nome : string }.
End CategoriaIn.

Module CategoriaOut.
Record t : Type := mk { id : UUID4; nome : string }.
End CategoriaOut.

Module CategoriaModel.
Record t : Type := mk { pk_id : Z; id : UUID4; nome : string }.
End CategoriaModel.

(** Modelled from the spec: [centro_treinamento/schemas.py] and
    [centro_treinamento/models.py] are absent.  A training center has [nome],
    [endereco] and [proprietario]; an athlete refers to it by [nome] alone. *)
Module CentroTreinamentoIn.
Record t : Type :=
  mk { nome : string; endereco : string; proprietario : string }.
End CentroTreinamentoIn.

Module CentroTreinamentoAtleta.
Record t : Type := mk { nome : string }.
End CentroTreinamentoAtleta.

Module CentroTreinamentoOut.
Record t : Type :=
  mk { id : UUID4; nome : string; endereco : string; proprietario : string }.
End CentroTreinamentoOut.

Module CentroTreinamentoModel.
Record t : Type :=
  mk { pk_id : Z; id : UUID4; nome : string; endereco : string;
       proprietario : string }.
End CentroTreinamentoModel.

(** Modelled from the spec: [atleta/schemas.py] and [atleta/models.py] are
    absent.  The input names its category and training center in nested
    objects; the output shape adds [id] and [criado_em] ([OutMixin]); the
    table row holds the two foreign keys instead of the nested objects. *)
Module AtletaIn.
Record t : Type :=
  mk { nome : string; cpf : string; idade : Z; peso : float; altura : float;
       sexo : string; categoria : CategoriaIn.t;
       centro_treinamento : CentroTreinamentoAtleta.t }.
End AtletaIn.

Module AtletaOut.
Record t : Type :=
  mk { id : UUID4; criado_em : datetime;
       nome : string; cpf : string; idade : Z; peso : float; altura : float;
       sexo : string; categoria : CategoriaIn.t;
       centro_treinamento : CentroTreinamentoAtleta.t }.
End AtletaOut.

Module AtletaGetAllDetails.
Record t : Type :=
  mk { nome : string; categoria : CategoriaIn.t;
       centro_treinamento : CentroTreinamentoAtleta.t }.
End AtletaGetAllDetails.

Module AtletaModel.
Record t : Type :=
  mk { pk_id : Z; id : UUID4; nome : string; cpf : string; idade : Z;
       peso : float; altura : float; sexo : string; criado_em : datetime;
       categoria_id : Z; centro_treinamento_id : Z }.
End AtletaModel.

(** Modelled from the spec: [AtletaUpdate] is absent.  Every field is
    optional: [None] is a field the request body did not set, [Some v] a
    field set to a value of the column's type.  The patch carries the
    columns without a uniqueness constraint. *)
Module AtletaUpdate.
Record t : Type :=
  mk { nome : option string; idade : option Z; peso : option float;
       altura : option float; sexo : option string }.
End AtletaUpdate.

(** ** The store *)

(** The three tables, each in the order a [select] without filter yields its
    rows. *)
Record Store : Type := mkStore {
  categorias : list CategoriaModel.t;
  centros_treinamento : list CentroTreinamentoModel.t;
  atletas : list AtletaModel.t
}.

Definition empty_store : Store := mkStore [] [] [].

(** ** The session: state and exceptions *)

Definition M (A : Type) : Type := Store -> outcome A * Store.

Definition ret {A} (a : A) : M A := fun s => (Return a, s).

Definition bind {A B} (m : M A) (k : A -> M B) : M B :=
  fun s => match m s with
           | (Return a, s') => k a s'
           | (Raise e, s') => (Raise e, s')
           end.

Definition raise {A} (e : exn) : M A := fun s => (Raise e, s).

Notation "x <- m ;; k" := (bind m (fun x => k))
  (at level 100, m at next level, right associativity).
Notation "m ;;; k" := (bind m (fun _ => k))
  (at level 100, right associativity).

(** [try: body except IntegrityError: handler]. *)
Definition try_except_IntegrityError {A} (body handler : M A) : M A :=
  fun s => match body s with
           | (Raise IntegrityError, s') => handler s'
           | r => r
           end.

(** [select(Model)], [.filter_by(...)], [db_session.execute(...)],
    [.scalars().all()] and [.scalars().first()]. *)
Definition query (A : Type) : Type := Store -> list A.
Definition select {A} (table : Store -> list A) : query A := table.
Definition filter_by {A} (p : A -> bool) (q : query A) : query A :=
  fun s => filter p (q s).
Definition execute {A} (q : query A) : M (list A) := fun s => (Return (q s), s).
Definition all {A} (rows : list A) : list A := rows.
Definition first {A} (rows : list A) : option A :=
  match rows with
  | [] => None
  | r :: _ => Some r
  end.

(** The key a table gives its next row: one more than the largest in use. *)
Definition next_pk {A} (pk : A -> Z) (rows : list A) : Z :=
  1 + fold_right Z.max 0 (map pk rows).

Definition has {A} (p : A -> bool) (rows : list A) : bool := existsb p rows.

(** *** Writes

    Modelled from the spec: the table constraints are declared in the absent
    [models.py].  [Category.nome], [TrainingCenter.nome] and [Athlete.cpf] are
    unique, [pk_id] is the generated primary key, and an athlete's two
    foreign keys must name existing rows.  A commit that would break one of
    them raises [IntegrityError] and stores nothing. *)

(** [db_session.add(categoria_model); await db_session.commit()]. *)
Definition add_commit_categoria (m : CategoriaModel.t) : M unit :=
  fun s =>
    if has (fun c => String.eqb (CategoriaModel.nome c) (CategoriaModel.nome m))
           (categorias s)
    then (Raise IntegrityError, s)
    else
      let row := CategoriaModel.mk (next_pk CategoriaModel.pk_id (categorias s))
                   (CategoriaModel.id m) (CategoriaModel.nome m) in
      (Return tt,
       mkStore (categorias s ++ [row]) (centros_treinamento s) (atletas s)).

(** [db_session.add(centro_treinamento_model); await db_session.commit()]. *)
Definition add_commit_centro_treinamento (m : CentroTreinamentoModel.t)
  : M unit :=
  fun s =>
    if has (fun c => String.eqb (CentroTreinamentoModel.nome c)
                                (CentroTreinamentoModel.nome m))
           (centros_treinamento s)
    then (Raise IntegrityError, s)
    else
      let row := CentroTreinamentoModel.mk
                   (next_pk CentroTreinamentoModel.pk_id (centros_treinamento s))
                   (CentroTreinamentoModel.id m) (CentroTreinamentoModel.nome m)
                   (CentroTreinamentoModel.endereco m)
                   (CentroTreinamentoModel.proprietario m) in
      (Return tt,
       mkStore (categorias s) (centros_treinamento s ++ [row]) (atletas s)).

(** [db_session.add(atleta_model); await db_session.commit()]. *)
Definition add_commit_atleta (m : AtletaModel.t) : M unit :=
  fun s =>
    if has (fun a => String.eqb (AtletaModel.cpf a) (AtletaModel.cpf m))
           (atletas s)
       || negb (has (fun c => Z.eqb (CategoriaModel.pk_id c)
                                    (AtletaModel.categoria_id m))
                    (categorias s))
       || negb (has (fun c => Z.eqb (CentroTreinamentoModel.pk_id c)
                                    (AtletaModel.centro_treinamento_id m))
                    (centros_treinamento s))
    then (Raise IntegrityError, s)
    else
      let row := AtletaModel.mk (next_pk AtletaModel.pk_id (atletas s))
                   (AtletaModel.id m) (AtletaModel.nome m) (AtletaModel.cpf m)
                   (AtletaModel.idade m) (AtletaModel.peso m)
                   (AtletaModel.altura m) (AtletaModel.sexo m)
                   (AtletaModel.criado_em m) (AtletaModel.categoria_id m)
                   (AtletaModel.centro_treinamento_id m) in
      (Return tt,
       mkStore (categorias s) (centros_treinamento s) (atletas s ++ [row])).

(** [await db_session.delete(atleta); await db_session.commit()]: the row is
    deleted by its primary key. *)
Definition delete_commit_atleta (atleta : AtletaModel.t) : M unit :=
  fun s =>
    (Return tt,
     mkStore (categorias s) (centros_treinamento s)
       (filter (fun a => negb (Z.eqb (AtletaModel.pk_id a)
                                     (AtletaModel.pk_id atleta)))
               (atletas s))).

(** One entry of [atleta_up.model_dump(exclude_unset=True)]: a key of
    [AtletaUpdate] with its value. *)
Inductive item : Type :=
| item_nome (value : string)
| item_idade (value : Z)
| item_peso (value : float)
| item_altura (value : float)
| item_sexo (value : string).

Definition opt_item {A} (key : A -> item) (o : option A) : list item :=
  match o with
  | Some v => [key v]
  | None => []
  end.

(** [model_dump(exclude_unset=True).items()], in field order. *)
Definition model_dump_exclude_unset (up : AtletaUpdate.t) : list item :=
  opt_item item_nome (AtletaUpdate.nome up)
  ++ opt_item item_idade (AtletaUpdate.idade up)
  ++ opt_item item_peso (AtletaUpdate.peso up)
  ++ opt_item item_altura (AtletaUpdate.altura up)
  ++ opt_item item_sexo (AtletaUpdate.sexo up).

(** [setattr(atleta, key, value)]. *)
Definition setattr (atleta : AtletaModel.t) (kv : item) : AtletaModel.t :=
  let '(AtletaModel.mk pk i nome cpf idade peso altura sexo criado cat ct) :=
    atleta in
  match kv with
  | item_nome v => AtletaModel.mk pk i v cpf idade peso altura sexo criado cat ct
  | item_idade v => AtletaModel.mk pk i nome cpf v peso altura sexo criado cat ct
  | item_peso v => AtletaModel.mk pk i nome cpf idade v altura sexo criado cat ct
  | item_altura v => AtletaModel.mk pk i nome cpf idade peso v sexo criado cat ct
  | item_sexo v => AtletaModel.mk pk i nome cpf idade peso altura v criado cat ct
  end.

(** [await db_session.commit()] with [atleta] modified: the row of its
    primary key is overwritten with the object's attributes. *)
Definition commit_atleta (atleta : AtletaModel.t) : M unit :=
  fun s =>
    (Return tt,
     mkStore (categorias s) (centros_treinamento s)
       (map (fun a => if Z.eqb (AtletaModel.pk_id a) (AtletaModel.pk_id atleta)
                      then atleta else a)
            (atletas s))).

(** [await db_session.refresh(atleta)]: the attributes are read again from
    the row of the object's primary key. *)
Definition refresh (atleta : AtletaModel.t) : M AtletaModel.t :=
  fun s =>
    match first (filter (fun a => Z.eqb (AtletaModel.pk_id a)
                                        (AtletaModel.pk_id atleta))
                        (atletas s)) with
    | Some row => (Return row, s)
    | None => (Raise InvalidRequestError, s)
    end.

(** *** Response shapes read from a row ([from_attributes]) *)

Definition CategoriaOut_model_validate (c : CategoriaModel.t) : CategoriaOut.t :=
  CategoriaOut.mk (CategoriaModel.id c) (CategoriaModel.nome c).

Definition CentroTreinamentoOut_model_validate (c : CentroTreinamentoModel.t)
  : CentroTreinamentoOut.t :=
  CentroTreinamentoOut.mk (CentroTreinamentoModel.id c)
    (CentroTreinamentoModel.nome c) (CentroTreinamentoModel.endereco c)
    (CentroTreinamentoModel.proprietario c).

(** The relationship attributes [atleta.categoria] and
    [atleta.centro_treinamento], loaded through the foreign keys. *)
Definition atleta_categoria (s : Store) (a : AtletaModel.t)
  : option CategoriaModel.t :=
  first (filter (fun c => Z.eqb (CategoriaModel.pk_id c)
                                (AtletaModel.categoria_id a))
                (categorias s)).

Definition atleta_centro_treinamento (s : Store) (a : AtletaModel.t)
  : option CentroTreinamentoModel.t :=
  first (filter (fun c => Z.eqb (CentroTreinamentoModel.pk_id c)
                                (AtletaModel.centro_treinamento_id a))
                (centros_treinamento s)).

Definition AtletaOut_model_validate (s : Store) (a : AtletaModel.t)
  : option AtletaOut.t :=
  match atleta_categoria s a, atleta_centro_treinamento s a with
  | Some c, Some ct =>
      Some (AtletaOut.mk (AtletaModel.id a) (AtletaModel.criado_em a)
              (AtletaModel.nome a) (AtletaModel.cpf a) (AtletaModel.idade a)
              (AtletaModel.peso a) (AtletaModel.altura a) (AtletaModel.sexo a)
              (CategoriaIn.mk (CategoriaModel.nome c))
              (CentroTreinamentoAtleta.mk (CentroTreinamentoModel.nome ct)))
  | _, _ => None
  end.

Definition AtletaGetAllDetails_model_validate (a : AtletaModel.t)
  : M AtletaGetAllDetails.t :=
  fun s =>
    match atleta_categoria s a, atleta_centro_treinamento s a with
    | Some c, Some ct =>
        (Return (AtletaGetAllDetails.mk (AtletaModel.nome a)
                   (CategoriaIn.mk (CategoriaModel.nome c))
                   (CentroTreinamentoAtleta.mk (CentroTreinamentoModel.nome ct))),
         s)
    | _, _ => (Raise ValidationError, s)
    end.

(** A list comprehension whose body can raise. *)
Fixpoint for_each {A B} (f : A -> M B) (l : list A) : M (list B) :=
  match l with
  | [] => ret []
  | x :: l' => y <- f x ;; ys <- for_each f l' ;; ret (y :: ys)
  end.

(** *** Pagination

    Modelled from the spec: [fastapi_pagination] is an external collaborator.
    [paginate] wraps the materialised list in the envelope
    [{items, total, page, size}]: [items] is the slice of the 1-based page
    [page] of length [size], [total] counts the whole list. *)
Record Params : Type := mkParams { params_page : Z; params_size : Z }.

Record Page (A : Type) : Type := mkPage {
  items : list A;
  total : Z;
  page : Z;
  size : Z
}.
Arguments mkPage {A} items total page size.
Arguments items {A} p.
Arguments total {A} p.
Arguments page {A} p.
Arguments size {A} p.

Definition paginate {A} (params : Params) (sequence : list A) : Page A :=
  let offset := params_size params * (params_page params - 1) in
  mkPage (firstn (Z.to_nat (params_size params))
                 (skipn (Z.to_nat offset) sequence))
         (Z.of_nat (List.length sequence))
         (params_page params) (params_size params).

(** *** Routes

    What the framework sends for a handler decorated with [status_code]: the
    returned value under that status, an [HTTPException] under its own, any
    other exception as a server error. *)
Inductive Response (A : Type) : Type :=
| Content (status_code : Z) (body : A)
| Error (status_code : Z) (detail : string).
Arguments Content {A} status_code body.
Arguments Error {A} status_code detail.

Definition route {A} (status_code : Z) (handler : M A)
  : Store -> Response A * Store :=
  fun s =>
    match handler s with
    | (Return a, s') => (Content status_code a, s')
    | (Raise (HTTPException c d), s') => (Error c d, s')
    | (Raise _, s') => (Error 500 "Internal Server Error", s')
    end.

(** ** [workout_api/categorias/controllers.py] *)

Module categorias.

(** [uuid] is the value [uuid4()] returns to this call.  The model object
    has no primary key until the commit assigns one. *)
Definition create (uuid : UUID4) (categoria_in : CategoriaIn.t)
  : M CategoriaOut.t :=
  let categoria_out := CategoriaOut.mk uuid (CategoriaIn.nome categoria_in) in
  try_except_IntegrityError
    (let categoria_model :=
       CategoriaModel.mk 0 (CategoriaOut.id categoria_out)
         (CategoriaOut.nome categoria_out) in
     add_commit_categoria categoria_model ;;;
     ret categoria_out)
    (raise (HTTPException HTTP_303_SEE_OTHER
              ("Já existe uma categoria cadastrada com esse nome: "
                 ++ CategoriaOut.nome categoria_out))).

Definition get_all (params : Params) : M (Page CategoriaModel.t) :=
  rows <- execute (select categorias) ;;
  let categorias := all rows in
  ret (paginate params categorias).

Definition get_by_id (id : UUID4) : M CategoriaModel.t :=
  rows <- execute (filter_by (fun c => N.eqb (CategoriaModel.id c) id)
                             (select categorias)) ;;
  match first rows with
  | None =>
      raise (HTTPException HTTP_404_NOT_FOUND
               ("Categoria não encontrada no id: " ++ str_uuid id))
  | Some categoria => ret categoria
  end.

Definition create_endpoint uuid categoria_in :=
  route HTTP_201_CREATED (create uuid categoria_in).
Definition get_all_endpoint params := route HTTP_200_OK (get_all params).
Definition get_by_id_endpoint id := route HTTP_200_OK (get_by_id id).

End categorias.

(** ** [workout_api/centro_treinamento/controllers.py] *)

Module centro_treinamento.

Definition create (uuid : UUID4) (centro_treinamento_in : CentroTreinamentoIn.t)
  : M CentroTreinamentoOut.t :=
  let centro_treinamento_out :=
    CentroTreinamentoOut.mk uuid
      (CentroTreinamentoIn.nome centro_treinamento_in)
      (CentroTreinamentoIn.endereco centro_treinamento_in)
      (CentroTreinamentoIn.proprietario centro_treinamento_in) in
  try_except_IntegrityError
    (let centro_treinamento_model :=
       CentroTreinamentoModel.mk 0
         (CentroTreinamentoOut.id centro_treinamento_out)
         (CentroTreinamentoOut.nome centro_treinamento_out)
         (CentroTreinamentoOut.endereco centro_treinamento_out)
         (CentroTreinamentoOut.proprietario centro_treinamento_out) in
     add_commit_centro_treinamento centro_treinamento_model ;;;
     ret centro_treinamento_out)
    (raise (HTTPException HTTP_303_SEE_OTHER
              ("Já existe um centro de treinamento cadastrado com esse nome: "
                 ++ CentroTreinamentoOut.nome centro_treinamento_out))).

Definition get_all (params : Params) : M (Page CentroTreinamentoModel.t) :=
  rows <- execute (select centros_treinamento) ;;
  let centros_treinamento := all rows in
  ret (paginate params centros_treinamento).

Definition get_by_id (id : UUID4) : M CentroTreinamentoModel.t :=
  rows <- execute (filter_by (fun c => N.eqb (CentroTreinamentoModel.id c) id)
                             (select centros_treinamento)) ;;
  match first rows with
  | None =>
      raise (HTTPException HTTP_404_NOT_FOUND
               ("Centro de treinamento não encontrado no id: " ++ str_uuid id))
  | Some centro_treinamento => ret centro_treinamento
  end.

Definition create_endpoint uuid centro_treinamento_in :=
  route HTTP_201_CREATED (create uuid centro_treinamento_in).
Definition get_all_endpoint params := route HTTP_200_OK (get_all params).
Definition get_by_id_endpoint id := route HTTP_200_OK (get_by_id id).

End centro_treinamento.

(** ** [workout_api/atleta/controllers.py] *)

Module atleta.

(** [uuid] and [utcnow] are the values [uuid4()] and [datetime.utcnow()]
    return to this call. *)
Definition post (uuid : UUID4) (utcnow : datetime) (atleta_in : AtletaIn.t)
  : M AtletaOut.t :=
  let categoria_name := CategoriaIn.nome (AtletaIn.categoria atleta_in) in
  let centro_treinamento_name :=
    CentroTreinamentoAtleta.nome (AtletaIn.centro_treinamento atleta_in) in
  rows <- execute (filter_by
                     (fun c => String.eqb (CategoriaModel.nome c) categoria_name)
                     (select categorias)) ;;
  match first rows with
  | None =>
      raise (HTTPException HTTP_400_BAD_REQUEST
               ("A Categoria " ++ categoria_name ++ " não encontrada."))
  | Some categoria =>
      rows <- execute (filter_by
                         (fun c => String.eqb (CentroTreinamentoModel.nome c)
                                              centro_treinamento_name)
                         (select centros_treinamento)) ;;
      match first rows with
      | None =>
          raise (HTTPException HTTP_400_BAD_REQUEST
                   ("O centro de treinamento " ++ categoria_name
                      ++ " não foi encontrado."))
      | Some centro_treinamento =>
          let atleta_out :=
            AtletaOut.mk uuid utcnow
              (AtletaIn.nome atleta_in) (AtletaIn.cpf atleta_in)
              (AtletaIn.idade atleta_in) (AtletaIn.peso atleta_in)
              (AtletaIn.altura atleta_in) (AtletaIn.sexo atleta_in)
              (AtletaIn.categoria atleta_in)
              (AtletaIn.centro_treinamento atleta_in) in
          try_except_IntegrityError
            (let atleta_model :=
               AtletaModel.mk 0 (AtletaOut.id atleta_out)
                 (AtletaOut.nome atleta_out) (AtletaOut.cpf atleta_out)
                 (AtletaOut.idade atleta_out) (AtletaOut.peso atleta_out)
                 (AtletaOut.altura atleta_out) (AtletaOut.sexo atleta_out)
                 (AtletaOut.criado_em atleta_out)
                 (CategoriaModel.pk_id categoria)
                 (CentroTreinamentoModel.pk_id centro_treinamento) in
             add_commit_atleta atleta_model ;;;
             ret atleta_out)
            (raise (HTTPException HTTP_303_SEE_OTHER
                      ("Já existe um atleta cadastrado com o cpf: "
                         ++ AtletaOut.cpf atleta_out)))
      end
  end.

Definition get_all (params : Params) : M (Page AtletaGetAllDetails.t) :=
  rows <- execute (select atletas) ;;
  let atletas := all rows in
  details <- for_each AtletaGetAllDetails_model_validate atletas ;;
  ret (paginate params details).

Definition get_by_id (id : UUID4) : M AtletaModel.t :=
  rows <- execute (filter_by (fun a => N.eqb (AtletaModel.id a) id)
                             (select atletas)) ;;
  match first rows with
  | None =>
      raise (HTTPException HTTP_404_NOT_FOUND
               ("Atleta não encontrada com o id: " ++ str_uuid id))
  | Some atleta => ret atleta
  end.

Definition get_by_name (nome : string) : M AtletaModel.t :=
  rows <- execute (filter_by (fun a => String.eqb (AtletaModel.nome a) nome)
                             (select atletas)) ;;
  match first rows with
  | None =>
      raise (HTTPException HTTP_404_NOT_FOUND
               ("Atleta não encontrada com o nome: " ++ nome))
  | Some atleta => ret atleta
  end.

Definition get_by_cpf (cpf : string) : M AtletaModel.t :=
  rows <- execute (filter_by (fun a => String.eqb (AtletaModel.cpf a) cpf)
                             (select atletas)) ;;
  match first rows with
  | None =>
      raise (HTTPException HTTP_404_NOT_FOUND
               ("Atleta não encontrada com o cpf: " ++ cpf))
  | Some atleta => ret atleta
  end.

Definition partial_update (id : UUID4) (atleta_up : AtletaUpdate.t)
  : M AtletaModel.t :=
  rows <- execute (filter_by (fun a => N.eqb (AtletaModel.id a) id)
                             (select atletas)) ;;
  match first rows with
  | None =>
      raise (HTTPException HTTP_404_NOT_FOUND
               ("Atleta não encontrada com o id: " ++ str_uuid id))
  | Some atleta =>
      let atleta_update := model_dump_exclude_unset atleta_up in
      let atleta := fold_left setattr atleta_update atleta in
      commit_atleta atleta ;;;
      refresh atleta
  end.

Definition delete (id : UUID4) : M unit :=
  rows <- execute (filter_by (fun a => N.eqb (AtletaModel.id a) id)
                             (select atletas)) ;;
  match first rows with
  | None =>
      raise (HTTPException HTTP_404_NOT_FOUND
               ("Atleta não encontrada com o id: " ++ str_uuid id))
  | Some atleta => delete_commit_atleta atleta
  end.

Definition post_endpoint uuid utcnow atleta_in :=
  route HTTP_201_CREATED (post uuid utcnow atleta_in).
Definition get_all_endpoint params := route HTTP_200_OK (get_all params).
Definition get_by_id_endpoint id := route HTTP_200_OK (get_by_id id).
Definition get_by_name_endpoint nome := route HTTP_200_OK (get_by_name nome).
Definition get_by_cpf_endpoint cpf := route HTTP_200_OK (get_by_cpf cpf).
Definition partial_update_endpoint id atleta_up :=
  route HTTP_200_OK (partial_update id atleta_up).
Definition delete_endpoint id := route HTTP_204_NO_CONTENT (delete id).

End atleta.

(** ** Table constraints and the rows a query meets first *)

(** [r] is the first row of [rows] that satisfies [p]. *)
Definition first_match {A} (p : A -> bool) (rows : list A) (r : A) : Prop :=
  exists before after,
    rows = (before ++ r :: after)%list /\ p r = true /\
    forall x, In x before -> p x = false.

(** No two rows agree on the column [col]. *)
Definition unique {A B} (col : A -> B) (rows : list A) : Prop :=
  NoDup (map col rows).

(** Every athlete row refers to a stored category and a stored training
    center. *)
Definition foreign_keys (s : Store) : Prop :=
  forall a, In a (atletas s) ->
    (exists c, In c (categorias s)
               /\ CategoriaModel.pk_id c = AtletaModel.categoria_id a)
    /\ (exists c, In c (centros_treinamento s)
                  /\ CentroTreinamentoModel.pk_id c
                     = AtletaModel.centro_treinamento_id a).

(** The constraints the database enforces on the three tables. *)
Record constraints (s : Store) : Prop := mkConstraints {
  categorias_pk : unique CategoriaModel.pk_id (categorias s);
  categorias_nome : unique CategoriaModel.nome (categorias s);
  centros_pk : unique CentroTreinamentoModel.pk_id (centros_treinamento s);
  centros_nome : unique CentroTreinamentoModel.nome (centros_treinamento s);
  atletas_pk : unique AtletaModel.pk_id (atletas s);
  atletas_cpf : unique AtletaModel.cpf (atletas s);
  atletas_fk : foreign_keys s
}.

(** A sample store: one category, one training center, two athletes. *)
Definition iniciante : CategoriaModel.t :=
  CategoriaModel.mk 1 0x9f1b6a0e3c2d4e5f8a7b6c5d4e3f2a1b%N "Iniciante".

Definition ct_king : CentroTreinamentoModel.t :=
  CentroTreinamentoModel.mk 1 0x1c0ffee0deca4f00baad0123456789ab%N
    "CT King" "Rua X, Q02" "Marcos".

Definition joao : AtletaModel.t :=
  AtletaModel.mk 1 0x3fa85f6457174562b3fc2c963f66afa6%N "Joao" "12345678900"
    25 75.5 1.75 "M" 1700000000000000 1 1.

Definition maria : AtletaModel.t :=
  AtletaModel.mk 2 0x7d444840dc0b4bd1a2f3b4c5d6e7f809%N "Maria" "98765432100"
    31 62.5 1.625 "F" 1700000500000000 1 1.

Definition sample_store : Store := mkStore [iniciante] [ct_king] [joao; maria].

(** The values [uuid4()] and [datetime.utcnow()] return to the next request,
    and an id no row has. *)
Definition generated_uuid : UUID4 := 0x0b5c7e9a12344abc9def0123456789ab%N.
Definition request_time : datetime := 1700001000000000.
Definition unknown_uuid : UUID4 := 0x6f1d2c3b4a594e68b7a6c5d4e3f2a1b0%N.

(** The same store with a second athlete named "Joao". *)
Definition joao_silva : AtletaModel.t :=
  AtletaModel.mk 3 0x5e0c1a2b3c4d4e5fa6b7c8d9e0f10213%N "Joao" "55566677788"
    40 90.25 1.875 "M" 1700000900000000 1 1.

Definition homonyms_store : Store :=
  mkStore [iniciante] [ct_king] [joao; maria; joao_silva].

Definition joao_in : AtletaIn.t :=
  AtletaIn.mk "Joao" "12345678900" 25 75.5 1.75 "M"
    (CategoriaIn.mk "Iniciante") (CentroTreinamentoAtleta.mk "CT King").

(** The value of a column after a patch: the value the patch sets, or the
    old one when the patch leaves the field unset. *)
Definition patched {A} (field : option A) (old : A) : A :=
  match field with
  | Some v => v
  | None => old
  end.

Definition ana_in : AtletaIn.t :=
  AtletaIn.mk "Ana" "11122233344" 20 60.5 1.5 "F"
    (CategoriaIn.mk "Iniciante") (CentroTreinamentoAtleta.mk "CT King").

(** A request that can change the store, with the values [uuid4()] and
    [datetime.utcnow()] return while it is served. *)
Inductive request : Type :=
| POST_categorias (uuid : UUID4) (categoria_in : CategoriaIn.t)
| POST_centros_treinamento (uuid : UUID4)
    (centro_treinamento_in : CentroTreinamentoIn.t)
| POST_atletas (uuid : UUID4) (utcnow : datetime) (atleta_in : AtletaIn.t)
| PATCH_atletas (id : UUID4) (atleta_up : AtletaUpdate.t)
| DELETE_atletas (id : UUID4).

(** The store after the request is served. *)
Definition serve (rq : request) (s : Store) : Store :=
  match rq with
  | POST_categorias uuid categoria_in =>
      snd (categorias.create uuid categoria_in s)
  | POST_centros_treinamento uuid centro_treinamento_in =>
      snd (centro_treinamento.create uuid centro_treinamento_in s)
  | POST_atletas uuid utcnow atleta_in =>
      snd (atleta.post uuid utcnow atleta_in s)
  | PATCH_atletas id atleta_up => snd (atleta.partial_update id atleta_up s)
  | DELETE_atletas id => snd (atleta.delete id s)
  end.

(** [uuid4()] yields an id that no stored athlete has. *)
Definition fresh_uuid (rq : request) (s : Store) : Prop :=
  match rq with
  | POST_atletas uuid _ _ =>
      forall a, In a (atletas s) -> AtletaModel.id a <> uuid
  | _ => True
  end.

(** The stores the API reaches from the empty database. *)
Inductive reachable : Store -> Prop :=
| reachable_empty : reachable empty_store
| reachable_serve s rq :
    reachable s -> fresh_uuid rq s -> reachable (serve rq s).

(** The response body of a created athlete, and the row stored for it with
    the foreign keys of the category [c] and the training center [ct]. *)
Definition created_out (uuid : UUID4) (utcnow : datetime)
           (atleta_in : AtletaIn.t) : AtletaOut.t :=
  AtletaOut.mk uuid utcnow
    (AtletaIn.nome atleta_in) (AtletaIn.cpf atleta_in)
    (AtletaIn.idade atleta_in) (AtletaIn.peso atleta_in)
    (AtletaIn.altura atleta_in) (AtletaIn.sexo atleta_in)
    (AtletaIn.categoria atleta_in) (AtletaIn.centro_treinamento atleta_in).

Definition created_row (s : Store) (uuid : UUID4) (utcnow : datetime)
           (atleta_in : AtletaIn.t) (c : CategoriaModel.t)
           (ct : CentroTreinamentoModel.t) : AtletaModel.t :=
  AtletaModel.mk (next_pk AtletaModel.pk_id (atletas s)) uuid
    (AtletaIn.nome atleta_in) (AtletaIn.cpf atleta_in)
    (AtletaIn.idade atleta_in) (AtletaIn.peso atleta_in)
    (AtletaIn.altura atleta_in) (AtletaIn.sexo atleta_in)
    utcnow (CategoriaModel.pk_id c) (CentroTreinamentoModel.pk_id ct).

(** The table after the commit of a modified object [r']. *)
Definition overwrite (r' : AtletaModel.t) (rows : list AtletaModel.t)
  : list AtletaModel.t :=
  map (fun a => if Z.eqb (AtletaModel.pk_id a) (AtletaModel.pk_id r')
                then r' else a) rows.

(** The patch of a request body [{}]. *)
Definition empty_patch : AtletaUpdate.t :=
  AtletaUpdate.mk None None None None None.

(** The input that created "Maria", and a training center not yet stored. *)
Definition maria_in : AtletaIn.t :=
  AtletaIn.mk "Maria" "98765432100" 31 62.5 1.625 "F"
    (CategoriaIn.mk "Iniciante") (CentroTreinamentoAtleta.mk "CT King").

Definition ct_queen_in : CentroTreinamentoIn.t :=
  CentroTreinamentoIn.mk "CT Queen" "Av. Y, 100" "Paula".

(** [d] is the summary of the athlete row [a] in the store [s]: its [nome]
    with the names of the category and the training center its foreign keys
    refer to. *)
Definition summary_of (s : Store) (a : AtletaModel.t)
           (d : AtletaGetAllDetails.t) : Prop :=
  AtletaGetAllDetails.nome d = AtletaModel.nome a
  /\ (exists c, In c (categorias s)
                /\ CategoriaModel.pk_id c = AtletaModel.categoria_id a
                /\ AtletaGetAllDetails.categoria d
                   = CategoriaIn.mk (CategoriaModel.nome c))
  /\ (exists ct, In ct (centros_treinamento s)
                 /\ CentroTreinamentoModel.pk_id ct
                    = AtletaModel.centro_treinamento_id a
                 /\ AtletaGetAllDetails.centro_treinamento d
                    = CentroTreinamentoAtleta.mk
                        (CentroTreinamentoModel.nome ct)).

(** ** Running a handler *)

Ltac run_handler :=
  unfold route, bind, execute, filter_by, select, raise, ret,
    try_except_IntegrityError; simpl.

(** ** Lemmas on strings *)

Example str_uuid_ex :
  str_uuid 0x3fa85f6457174562b3fc2c963f66afa6%N
  = "3fa85f64-5717-4562-b3fc-2c963f66afa6".
Proof. reflexivity. Qed.

Lemma prefix_app (a b : string) : prefix a (a ++ b) = true.
Proof.
  induction a as [|c a IH]; simpl.
  - now destruct b.
  - destruct (ascii_dec c c) as [_|N]; [exact IH | now elim N].
Qed.

Lemma includes_unfold (sub s : string) :
  includes sub s
  = prefix sub s
    || match s with
       | EmptyString => false
       | String _ s' => includes sub s'
       end.
Proof. destruct s; reflexivity. Qed.

Lemma includes_app (pre sub post : string) :
  includes sub (pre ++ sub ++ post) = true.
Proof.
  induction pre as [|c pre IH].
  - change ("" ++ sub ++ post) with (sub ++ post).
    rewrite includes_unfold, prefix_app. reflexivity.
  - change (String c pre ++ sub ++ post) with (String c (pre ++ sub ++ post)).
    rewrite includes_unfold, IH. apply orb_true_r.
Qed.

Lemma includes_suffix (pre sub : string) : includes sub (pre ++ sub) = true.
Proof.
  replace (pre ++ sub) with (pre ++ sub ++ "").
  - apply includes_app.
  - f_equal. induction sub; simpl; congruence.
Qed.

(** ** Lemmas on queries *)

Section Queries.
Context {A : Type}.
Variable p : A -> bool.

Lemma first_filter_some (rows : list A) (r : A) :
  first (filter p rows) = Some r <-> first_match p rows r.
Proof.
  split.
  - induction rows as [|x rows IH]; simpl; [discriminate|].
    destruct (p x) eqn:Px; simpl.
    + intros [= ->]. exists [], rows. repeat split; auto. intros ? [].
    + intros H. destruct (IH H) as (b & a & -> & Pr & Hb).
      exists (x :: b), a. repeat split; auto.
      intros y [<-|Hy]; auto.
  - intros (b & a & -> & Pr & Hb).
    induction b as [|x b IH]; simpl.
    + now rewrite Pr.
    + rewrite (Hb x (or_introl eq_refl)). apply IH.
      intros y Hy. apply Hb. now right.
Qed.

Lemma first_filter_none (rows : list A) :
  first (filter p rows) = None <-> forall x, In x rows -> p x = false.
Proof.
  induction rows as [|x rows IH]; simpl.
  - split; [intros _ ? [] | reflexivity].
  - destruct (p x) eqn:Px; simpl.
    + split; [discriminate|]. intros H.
      specialize (H x (or_introl eq_refl)). congruence.
    + rewrite IH. split.
      * intros H y [<-|Hy]; auto.
      * intros H y Hy. apply H. now right.
Qed.

Lemma first_filter_found (rows : list A) :
  (exists x, In x rows /\ p x = true) ->
  exists r, first (filter p rows) = Some r.
Proof.
  intros (x & Hx & Px).
  destruct (first (filter p rows)) as [r|] eqn:E; [now exists r|].
  rewrite first_filter_none in E. rewrite (E x Hx) in Px. discriminate.
Qed.

Lemma first_match_In (rows : list A) (r : A) :
  first_match p rows r -> In r rows /\ p r = true.
Proof.
  intros (b & a & -> & Pr & _). split; [|exact Pr].
  apply in_or_app. right. now left.
Qed.

End Queries.

Section Keys.
Context {A K : Type}.
Variable col : A -> K.
Variable eqb : K -> K -> bool.
Hypothesis eqb_eq : forall a b, eqb a b = true <-> a = b.

Lemma eqb_refl_key (k : K) : eqb k k = true.
Proof. now apply eqb_eq. Qed.

Lemma eqb_neq_key (a b : K) : eqb a b = false <-> a <> b.
Proof.
  destruct (eqb a b) eqn:E.
  - apply eqb_eq in E. split; [discriminate | congruence].
  - split; [|reflexivity]. intros _ H. apply eqb_eq in H. congruence.
Qed.

Lemma unique_inj (rows : list A) (x y : A) :
  unique col rows -> In x rows -> In y rows -> col x = col y -> x = y.
Proof.
  unfold unique. induction rows as [|r rows IH]; simpl; [intros _ []|].
  intros U Hx Hy E. apply NoDup_cons_iff in U as [Hr U].
  destruct Hx as [<-|Hx], Hy as [<-|Hy]; auto.
  - elim Hr. rewrite E. now apply in_map.
  - elim Hr. rewrite <- E. now apply in_map.
Qed.

Lemma unique_first (rows : list A) (r : A) :
  unique col rows -> In r rows ->
  first (filter (fun a => eqb (col a) (col r)) rows) = Some r.
Proof.
  intros U Hr.
  destruct (first_filter_found (fun a => eqb (col a) (col r)) rows) as [x Hx].
  - exists r. split; [exact Hr | apply eqb_refl_key].
  - rewrite Hx. f_equal.
    apply first_filter_some, first_match_In in Hx as [Hin Hp].
    apply eqb_eq in Hp. now apply (unique_inj rows).
Qed.

Lemma unique_count (rows : list A) (r : A) :
  unique col rows -> In r rows ->
  List.length (filter (fun a => eqb (col a) (col r)) rows) = 1%nat.
Proof.
  unfold unique. induction rows as [|x rows IH]; simpl; [intros _ []|].
  intros U Hr. apply NoDup_cons_iff in U as [Hx U].
  destruct Hr as [->|Hr].
  - rewrite eqb_refl_key. simpl. f_equal.
    assert (E : filter (fun a => eqb (col a) (col r)) rows = []).
    { clear IH U. induction rows as [|y rows IH]; simpl; [reflexivity|].
      simpl in Hx. destruct (eqb (col y) (col r)) eqn:Ey.
      - apply eqb_eq in Ey. elim Hx. now left.
      - apply IH. intros H. apply Hx. now right. }
    now rewrite E.
  - destruct (eqb (col x) (col r)) eqn:Ex.
    + apply eqb_eq in Ex. elim Hx. rewrite Ex. now apply in_map.
    + now apply IH.
Qed.

(** With a unique key, the first row that matches [col r] is [r], wherever it
    stands. *)
Lemma unique_split (rows : list A) (r : A) :
  unique col rows -> In r rows ->
  exists before after,
    rows = (before ++ r :: after)%list
    /\ (forall x, In x before -> eqb (col x) (col r) = false)
    /\ (forall x, In x after -> eqb (col x) (col r) = false).
Proof.
  intros U Hr. destruct (in_split _ _ Hr) as (b & a & ->).
  exists b, a. split; [reflexivity|].
  split; intros x Hx; apply eqb_neq_key; intros E.
  - assert (x = r) as ->.
    { apply (unique_inj (b ++ r :: a)); auto.
      - apply in_or_app. now left.  }
    unfold unique in U. rewrite map_app in U. simpl in U.
    apply NoDup_remove_2 in U. apply U, in_or_app. left. now apply in_map.
  - assert (x = r) as ->.
    { apply (unique_inj (b ++ r :: a)); auto.
      apply in_or_app. right. now right. }
    unfold unique in U. rewrite map_app in U. simpl in U.
    apply NoDup_remove_2 in U. apply U, in_or_app. right. now apply in_map.
Qed.

End Keys.

(** ** Creating an athlete: the two reference checks *)

Lemma categoria_absent (s : Store) (n : string) :
  (forall c, In c (categorias s) -> CategoriaModel.nome c <> n) ->
  first (filter (fun c => String.eqb (CategoriaModel.nome c) n) (categorias s))
  = None.
Proof.
  intros H. apply first_filter_none. intros c Hc.
  apply String.eqb_neq. now apply H.
Qed.

Lemma centro_treinamento_absent (s : Store) (n : string) :
  (forall c, In c (centros_treinamento s) -> CentroTreinamentoModel.nome c <> n) ->
  first (filter (fun c => String.eqb (CentroTreinamentoModel.nome c) n)
                (centros_treinamento s))
  = None.
Proof.
  intros H. apply first_filter_none. intros c Hc.
  apply String.eqb_neq. now apply H.
Qed.

Lemma categoria_present (s : Store) (n : string) :
  (exists c, In c (categorias s) /\ CategoriaModel.nome c = n) ->
  exists c,
    first (filter (fun c => String.eqb (CategoriaModel.nome c) n) (categorias s))
    = Some c
    /\ In c (categorias s) /\ CategoriaModel.nome c = n.
Proof.
  intros (c & Hc & E).
  destruct (first_filter_found
              (fun c => String.eqb (CategoriaModel.nome c) n) (categorias s))
    as [r Hr].
  - exists c. split; [exact Hc | now apply String.eqb_eq].
  - exists r. split; [exact Hr|].
    apply first_filter_some, first_match_In in Hr as [Hin Hp].
    split; [exact Hin | now apply String.eqb_eq].
Qed.

Lemma centro_treinamento_present (s : Store) (n : string) :
  (exists c, In c (centros_treinamento s) /\ CentroTreinamentoModel.nome c = n) ->
  exists c,
    first (filter (fun c => String.eqb (CentroTreinamentoModel.nome c) n)
                  (centros_treinamento s))
    = Some c
    /\ In c (centros_treinamento s) /\ CentroTreinamentoModel.nome c = n.
Proof.
  intros (c & Hc & E).
  destruct (first_filter_found
              (fun c => String.eqb (CentroTreinamentoModel.nome c) n)
              (centros_treinamento s))
    as [r Hr].
  - exists c. split; [exact Hc | now apply String.eqb_eq].
  - exists r. split; [exact Hr|].
    apply first_filter_some, first_match_In in Hr as [Hin Hp].
    split; [exact Hin | now apply String.eqb_eq].
Qed.

(** The response of [post] when the category lookup finds nothing. *)
Lemma post_without_categoria uuid utcnow atleta_in s :
  (forall c, In c (categorias s) ->
     CategoriaModel.nome c <> CategoriaIn.nome (AtletaIn.categoria atleta_in)) ->
  atleta.post_endpoint uuid utcnow atleta_in s
  = (Error HTTP_400_BAD_REQUEST
       ("A Categoria " ++ CategoriaIn.nome (AtletaIn.categoria atleta_in)
          ++ " não encontrada."),
     s).
Proof.
  intros H. unfold atleta.post_endpoint, atleta.post. run_handler.
  now rewrite (categoria_absent s _ H).
Qed.

(** The response of [post] when the category is found and the training
    center is not. *)
Lemma post_without_centro_treinamento uuid utcnow atleta_in s :
  (exists c, In c (categorias s)
     /\ CategoriaModel.nome c = CategoriaIn.nome (AtletaIn.categoria atleta_in)) ->
  (forall c, In c (centros_treinamento s) ->
     CentroTreinamentoModel.nome c
     <> CentroTreinamentoAtleta.nome (AtletaIn.centro_treinamento atleta_in)) ->
  atleta.post_endpoint uuid utcnow atleta_in s
  = (Error HTTP_400_BAD_REQUEST
       ("O centro de treinamento "
          ++ CategoriaIn.nome (AtletaIn.categoria atleta_in)
          ++ " não foi encontrado."),
     s).
Proof.
  intros Hc Hct. unfold atleta.post_endpoint, atleta.post. run_handler.
  destruct (categoria_present s _ Hc) as (c & -> & _).
  now rewrite (centro_treinamento_absent s _ Hct).
Qed.

(** C1: when [categoria.nome] of the input matches no category row, creating
    the athlete fails with status 400, the message names that category, and
    the store is the one before the call. *)
Theorem post_categoria_missing uuid utcnow atleta_in s :
  (forall c, In c (categorias s) ->
     CategoriaModel.nome c <> CategoriaIn.nome (AtletaIn.categoria atleta_in)) ->
  exists detail,
    atleta.post_endpoint uuid utcnow atleta_in s
    = (Error HTTP_400_BAD_REQUEST detail, s)
    /\ includes (CategoriaIn.nome (AtletaIn.categoria atleta_in)) detail = true.
Proof.
  intros H. eexists. split.
  - now apply post_without_categoria.
  - apply includes_app.
Qed.

Lemma post_categoria_missing_witness :
  exists detail,
    atleta.post_endpoint generated_uuid request_time
      (AtletaIn.mk "Ana" "11122233344" 20 60.5 1.5 "F"
         (CategoriaIn.mk "Elite") (CentroTreinamentoAtleta.mk "CT King"))
      sample_store
    = (Error HTTP_400_BAD_REQUEST detail, sample_store)
    /\ includes "Elite" detail = true.
Proof.
  apply (post_categoria_missing generated_uuid request_time
           (AtletaIn.mk "Ana" "11122233344" 20 60.5 1.5 "F"
              (CategoriaIn.mk "Elite") (CentroTreinamentoAtleta.mk "CT King"))
           sample_store).
  simpl. intros c [<-|[]]. discriminate.
Defined.

(** C10: when neither the category nor the training center of the input
    exists, the failure is the 400 of the category check, with the message
    that names the category and not the message of the training-center
    check. *)
Theorem post_checks_categoria_first uuid utcnow atleta_in s :
  (forall c, In c (categorias s) ->
     CategoriaModel.nome c <> CategoriaIn.nome (AtletaIn.categoria atleta_in)) ->
  (forall c, In c (centros_treinamento s) ->
     CentroTreinamentoModel.nome c
     <> CentroTreinamentoAtleta.nome (AtletaIn.centro_treinamento atleta_in)) ->
  let detail :=
    "A Categoria " ++ CategoriaIn.nome (AtletaIn.categoria atleta_in)
       ++ " não encontrada." in
  atleta.post_endpoint uuid utcnow atleta_in s
  = (Error HTTP_400_BAD_REQUEST detail, s)
  /\ includes (CategoriaIn.nome (AtletaIn.categoria atleta_in)) detail = true
  /\ forall n,
       detail <> "O centro de treinamento " ++ n ++ " não foi encontrado.".
Proof.
  intros Hc _ detail. split; [|split].
  - now apply post_without_categoria.
  - apply includes_app.
  - intros n. unfold detail. simpl. discriminate.
Qed.

Lemma post_checks_categoria_first_witness :
  atleta.post_endpoint generated_uuid request_time
    (AtletaIn.mk "Ana" "11122233344" 20 60.5 1.5 "F"
       (CategoriaIn.mk "Elite") (CentroTreinamentoAtleta.mk "CT Queen"))
    sample_store
  = (Error HTTP_400_BAD_REQUEST "A Categoria Elite não encontrada.",
     sample_store)
  /\ includes "Elite" "A Categoria Elite não encontrada." = true
  /\ forall n, "A Categoria Elite não encontrada."
               <> "O centro de treinamento " ++ n ++ " não foi encontrado.".
Proof.
  apply (post_checks_categoria_first generated_uuid request_time
           (AtletaIn.mk "Ana" "11122233344" 20 60.5 1.5 "F"
              (CategoriaIn.mk "Elite") (CentroTreinamentoAtleta.mk "CT Queen"))
           sample_store).
  - simpl. intros c [<-|[]]. discriminate.
  - simpl. intros c [<-|[]]. discriminate.
Defined.

(** C2: with the category "Iniciante" stored and no training center "CT King",
    creating the athlete fails with status 400, and the message carries the
    category name where the training-center name belongs: "CT King" is not
    in it. *)
Theorem post_centro_missing_names_categoria :
  atleta.post_endpoint generated_uuid request_time joao_in
    (mkStore [iniciante] [] [])
  = (Error HTTP_400_BAD_REQUEST
       "O centro de treinamento Iniciante não foi encontrado.",
     mkStore [iniciante] [] [])
  /\ includes "CT King" "O centro de treinamento Iniciante não foi encontrado."
     = false.
Proof. split; reflexivity. Qed.


(** ** Creating a category *)

Lemma has_true {A} (p : A -> bool) (rows : list A) :
  has p rows = true <-> exists x, In x rows /\ p x = true.
Proof. apply existsb_exists. Qed.

Lemma has_false {A} (p : A -> bool) (rows : list A) :
  has p rows = false <-> forall x, In x rows -> p x = false.
Proof.
  unfold has. induction rows as [|r rows IH]; simpl.
  - split; [intros _ ? [] | reflexivity].
  - rewrite orb_false_iff, IH. split.
    + intros [Hr H] x [<-|Hx]; auto.
    + intros H. split; [apply H; now left | intros x Hx; apply H; now right].
Qed.

(** C3: creating a category whose [nome] a stored category already has fails
    with status 303, the message carries that [nome], the table is the one
    before the call, and it holds one row of that [nome]. *)
Theorem create_duplicate_nome uuid categoria_in s :
  unique CategoriaModel.nome (categorias s) ->
  (exists c, In c (categorias s)
             /\ CategoriaModel.nome c = CategoriaIn.nome categoria_in) ->
  exists detail s',
    categorias.create_endpoint uuid categoria_in s
    = (Error HTTP_303_SEE_OTHER detail, s')
    /\ includes (CategoriaIn.nome categoria_in) detail = true
    /\ categorias s' = categorias s
    /\ List.length
         (filter (fun c => String.eqb (CategoriaModel.nome c)
                                      (CategoriaIn.nome categoria_in))
                 (categorias s'))
       = 1%nat.
Proof.
  intros U (c & Hc & E).
  exists ("Já existe uma categoria cadastrada com esse nome: "
            ++ CategoriaIn.nome categoria_in), s.
  split; [|split; [|split]].
  - unfold categorias.create_endpoint, categorias.create, add_commit_categoria.
    run_handler.
    replace (has _ (categorias s)) with true; [reflexivity|].
    symmetry. apply has_true. exists c. split; [exact Hc|].
    now apply String.eqb_eq.
  - apply includes_suffix.
  - reflexivity.
  - rewrite <- E. apply unique_count; auto. apply String.eqb_eq.
Qed.

Lemma create_duplicate_nome_witness :
  exists detail s',
    categorias.create_endpoint generated_uuid (CategoriaIn.mk "Iniciante")
      sample_store
    = (Error HTTP_303_SEE_OTHER detail, s')
    /\ includes "Iniciante" detail = true
    /\ categorias s' = [iniciante]
    /\ List.length
         (filter (fun c => String.eqb (CategoriaModel.nome c) "Iniciante")
                 (categorias s'))
       = 1%nat.
Proof.
  apply (create_duplicate_nome generated_uuid (CategoriaIn.mk "Iniciante")
           sample_store).
  - repeat constructor. simpl. tauto.
  - exists iniciante. split; [now left | reflexivity].
Defined.

(** The training-center router has the same failure. *)
Lemma centro_treinamento_create_duplicate_nome uuid centro_in s :
  (exists c, In c (centros_treinamento s)
             /\ CentroTreinamentoModel.nome c = CentroTreinamentoIn.nome centro_in) ->
  centro_treinamento.create_endpoint uuid centro_in s
  = (Error HTTP_303_SEE_OTHER
       ("Já existe um centro de treinamento cadastrado com esse nome: "
          ++ CentroTreinamentoIn.nome centro_in),
     s).
Proof.
  intros (c & Hc & E).
  unfold centro_treinamento.create_endpoint, centro_treinamento.create,
    add_commit_centro_treinamento.
  run_handler.
  replace (has _ (centros_treinamento s)) with true; [reflexivity|].
  symmetry. apply has_true. exists c. split; [exact Hc|].
  now apply String.eqb_eq.
Qed.

(** A category with a new [nome] is stored at the end of the table under the
    next primary key, and the output shape is returned under 201. *)
Lemma create_new_nome uuid categoria_in s :
  (forall c, In c (categorias s) ->
     CategoriaModel.nome c <> CategoriaIn.nome categoria_in) ->
  categorias.create_endpoint uuid categoria_in s
  = (Content HTTP_201_CREATED
       (CategoriaOut.mk uuid (CategoriaIn.nome categoria_in)),
     mkStore
       (categorias s
          ++ [CategoriaModel.mk (next_pk CategoriaModel.pk_id (categorias s))
                uuid (CategoriaIn.nome categoria_in)])
       (centros_treinamento s) (atletas s)).
Proof.
  intros H.
  unfold categorias.create_endpoint, categorias.create, add_commit_categoria.
  run_handler.
  replace (has _ (categorias s)) with false; [reflexivity|].
  symmetry. apply has_false. intros c Hc. apply String.eqb_neq. now apply H.
Qed.

(** ** Lookups *)

(** A handler that returns the first row of a filtered query, or raises. *)
Lemma lookup_found {A} (p : A -> bool) (table : Store -> list A) (e : exn)
      (status : Z) (s : Store) :
  (exists x, In x (table s) /\ p x = true) ->
  exists r,
    first_match p (table s) r
    /\ route status
         (rows <- execute (filter_by p (select table)) ;;
          match first rows with
          | None => raise e
          | Some row => ret row
          end) s
       = (Content status r, s).
Proof.
  intros H. destruct (first_filter_found p (table s) H) as [r Hr].
  exists r. split; [now apply first_filter_some|].
  run_handler. now rewrite Hr.
Qed.

Lemma lookup_not_found {A} (p : A -> bool) (table : Store -> list A)
      (code : Z) (detail : string) (status : Z) (s : Store) :
  (forall x, In x (table s) -> p x = false) ->
  route status
    (rows <- execute (filter_by p (select table)) ;;
     match first rows with
     | None => raise (HTTPException code detail)
     | Some row => ret row
     end) s
  = (Error code detail, s).
Proof.
  intros H. apply first_filter_none in H.
  run_handler. now rewrite H.
Qed.

(** C7: [get_by_id] of each router answers 404 with the id in the message
    when no row has the id, and 200 with the first row that has it
    otherwise. *)
Theorem get_by_id_spec (s : Store) (id : UUID4) :
  ((forall c, In c (categorias s) -> CategoriaModel.id c <> id) ->
   exists detail,
     categorias.get_by_id_endpoint id s = (Error HTTP_404_NOT_FOUND detail, s)
     /\ includes (str_uuid id) detail = true)
  /\ ((exists c, In c (categorias s) /\ CategoriaModel.id c = id) ->
      exists c,
        first_match (fun c => N.eqb (CategoriaModel.id c) id) (categorias s) c
        /\ categorias.get_by_id_endpoint id s = (Content HTTP_200_OK c, s)
        /\ CategoriaOut.id (CategoriaOut_model_validate c) = id)
  /\ ((forall c, In c (centros_treinamento s) ->
         CentroTreinamentoModel.id c <> id) ->
      exists detail,
        centro_treinamento.get_by_id_endpoint id s
        = (Error HTTP_404_NOT_FOUND detail, s)
        /\ includes (str_uuid id) detail = true)
  /\ ((exists c, In c (centros_treinamento s)
                 /\ CentroTreinamentoModel.id c = id) ->
      exists c,
        first_match (fun c => N.eqb (CentroTreinamentoModel.id c) id)
                    (centros_treinamento s) c
        /\ centro_treinamento.get_by_id_endpoint id s
           = (Content HTTP_200_OK c, s)
        /\ CentroTreinamentoOut.id (CentroTreinamentoOut_model_validate c) = id)
  /\ ((forall a, In a (atletas s) -> AtletaModel.id a <> id) ->
      exists detail,
        atleta.get_by_id_endpoint id s = (Error HTTP_404_NOT_FOUND detail, s)
        /\ includes (str_uuid id) detail = true)
  /\ ((exists a, In a (atletas s) /\ AtletaModel.id a = id) ->
      exists a,
        first_match (fun a => N.eqb (AtletaModel.id a) id) (atletas s) a
        /\ atleta.get_by_id_endpoint id s = (Content HTTP_200_OK a, s)
        /\ AtletaModel.id a = id).
Proof.
  repeat split.
  - intros H. eexists. split; [|apply includes_suffix].
    apply (lookup_not_found _ categorias).
    intros c Hc. apply N.eqb_neq. now apply H.
  - intros (c & Hc & E).
    destruct (lookup_found (fun c => N.eqb (CategoriaModel.id c) id) categorias
                (HTTPException HTTP_404_NOT_FOUND
                   ("Categoria não encontrada no id: " ++ str_uuid id))
                HTTP_200_OK s) as (r & Hr & Hres).
    + exists c. split; [exact Hc | now apply N.eqb_eq].
    + exists r. repeat split; auto.
      apply first_match_In in Hr as [_ Hp]. now apply N.eqb_eq in Hp.
  - intros H. eexists. split; [|apply includes_suffix].
    apply (lookup_not_found _ centros_treinamento).
    intros c Hc. apply N.eqb_neq. now apply H.
  - intros (c & Hc & E).
    destruct (lookup_found (fun c => N.eqb (CentroTreinamentoModel.id c) id)
                centros_treinamento
                (HTTPException HTTP_404_NOT_FOUND
                   ("Centro de treinamento não encontrado no id: "
                      ++ str_uuid id))
                HTTP_200_OK s) as (r & Hr & Hres).
    + exists c. split; [exact Hc | now apply N.eqb_eq].
    + exists r. repeat split; auto.
      apply first_match_In in Hr as [_ Hp]. now apply N.eqb_eq in Hp.
  - intros H. eexists. split; [|apply includes_suffix].
    apply (lookup_not_found _ atletas).
    intros c Hc. apply N.eqb_neq. now apply H.
  - intros (c & Hc & E).
    destruct (lookup_found (fun a => N.eqb (AtletaModel.id a) id) atletas
                (HTTPException HTTP_404_NOT_FOUND
                   ("Atleta não encontrada com o id: " ++ str_uuid id))
                HTTP_200_OK s) as (r & Hr & Hres).
    + exists c. split; [exact Hc | now apply N.eqb_eq].
    + exists r. repeat split; auto.
      apply first_match_In in Hr as [_ Hp]. now apply N.eqb_eq in Hp.
Qed.

Lemma get_by_id_spec_witness :
  (exists detail,
     categorias.get_by_id_endpoint unknown_uuid sample_store
     = (Error HTTP_404_NOT_FOUND detail, sample_store)
     /\ includes (str_uuid unknown_uuid) detail = true)
  /\ (exists detail,
        centro_treinamento.get_by_id_endpoint unknown_uuid sample_store
        = (Error HTTP_404_NOT_FOUND detail, sample_store)
        /\ includes (str_uuid unknown_uuid) detail = true)
  /\ (exists detail,
        atleta.get_by_id_endpoint unknown_uuid sample_store
        = (Error HTTP_404_NOT_FOUND detail, sample_store)
        /\ includes (str_uuid unknown_uuid) detail = true)
  /\ (exists c,
        categorias.get_by_id_endpoint (CategoriaModel.id iniciante) sample_store
        = (Content HTTP_200_OK c, sample_store))
  /\ (exists c,
        centro_treinamento.get_by_id_endpoint (CentroTreinamentoModel.id ct_king)
          sample_store
        = (Content HTTP_200_OK c, sample_store))
  /\ (exists a,
        atleta.get_by_id_endpoint (AtletaModel.id maria) sample_store
        = (Content HTTP_200_OK a, sample_store)).
Proof.
  destruct (get_by_id_spec sample_store unknown_uuid)
    as (A1 & _ & A2 & _ & A3 & _).
  destruct (get_by_id_spec sample_store (CategoriaModel.id iniciante))
    as (_ & P1 & _).
  destruct (get_by_id_spec sample_store (CentroTreinamentoModel.id ct_king))
    as (_ & _ & _ & P2 & _).
  destruct (get_by_id_spec sample_store (AtletaModel.id maria))
    as (_ & _ & _ & _ & _ & P3).
  split; [|split; [|split; [|split; [|split]]]].
  - apply A1. simpl. intros c [<-|[]]. discriminate.
  - apply A2. simpl. intros c [<-|[]]. discriminate.
  - apply A3. simpl. intros c [<-|[<-|[]]]; discriminate.
  - destruct P1 as (c & _ & H & _).
    + exists iniciante. split; [now left | reflexivity].
    + now exists c.
  - destruct P2 as (c & _ & H & _).
    + exists ct_king. split; [now left | reflexivity].
    + now exists c.
  - destruct P3 as (a & _ & H & _).
    + exists maria. split; [right; now left | reflexivity].
    + now exists a.
Defined.

(** C9: [get_by_name] and [get_by_cpf] answer 200 with the first athlete row,
    in the order of the table, whose [nome] (or [cpf]) is the key, whatever
    the number of rows that share it, and 404 with the key in the message when
    no row has it. *)
Theorem get_by_name_cpf_first_match (s : Store) (key : string) :
  ((exists a, In a (atletas s) /\ AtletaModel.nome a = key) ->
   exists a,
     first_match (fun a => String.eqb (AtletaModel.nome a) key) (atletas s) a
     /\ atleta.get_by_name_endpoint key s = (Content HTTP_200_OK a, s))
  /\ ((forall a, In a (atletas s) -> AtletaModel.nome a <> key) ->
      exists detail,
        atleta.get_by_name_endpoint key s = (Error HTTP_404_NOT_FOUND detail, s)
        /\ includes key detail = true)
  /\ ((exists a, In a (atletas s) /\ AtletaModel.cpf a = key) ->
      exists a,
        first_match (fun a => String.eqb (AtletaModel.cpf a) key) (atletas s) a
        /\ atleta.get_by_cpf_endpoint key s = (Content HTTP_200_OK a, s))
  /\ ((forall a, In a (atletas s) -> AtletaModel.cpf a <> key) ->
      exists detail,
        atleta.get_by_cpf_endpoint key s = (Error HTTP_404_NOT_FOUND detail, s)
        /\ includes key detail = true).
Proof.
  repeat split.
  - intros (a & Ha & E).
    apply (lookup_found (fun a => String.eqb (AtletaModel.nome a) key) atletas).
    exists a. split; [exact Ha | now apply String.eqb_eq].
  - intros H. eexists. split; [|apply includes_suffix].
    apply (lookup_not_found _ atletas).
    intros a Ha. apply String.eqb_neq. now apply H.
  - intros (a & Ha & E).
    apply (lookup_found (fun a => String.eqb (AtletaModel.cpf a) key) atletas).
    exists a. split; [exact Ha | now apply String.eqb_eq].
  - intros H. eexists. split; [|apply includes_suffix].
    apply (lookup_not_found _ atletas).
    intros a Ha. apply String.eqb_neq. now apply H.
Qed.

Lemma get_by_name_cpf_first_match_witness :
  (exists a,
     first_match (fun a => String.eqb (AtletaModel.nome a) "Joao")
                 (atletas homonyms_store) a
     /\ atleta.get_by_name_endpoint "Joao" homonyms_store
        = (Content HTTP_200_OK a, homonyms_store))
  /\ (exists detail,
        atleta.get_by_name_endpoint "Ana" homonyms_store
        = (Error HTTP_404_NOT_FOUND detail, homonyms_store)
        /\ includes "Ana" detail = true)
  /\ (exists a,
        first_match (fun a => String.eqb (AtletaModel.cpf a) "98765432100")
                    (atletas homonyms_store) a
        /\ atleta.get_by_cpf_endpoint "98765432100" homonyms_store
           = (Content HTTP_200_OK a, homonyms_store))
  /\ (exists detail,
        atleta.get_by_cpf_endpoint "00000000000" homonyms_store
        = (Error HTTP_404_NOT_FOUND detail, homonyms_store)
        /\ includes "00000000000" detail = true).
Proof.
  destruct (get_by_name_cpf_first_match homonyms_store "Joao") as (N1 & _).
  destruct (get_by_name_cpf_first_match homonyms_store "Ana") as (_ & N2 & _).
  destruct (get_by_name_cpf_first_match homonyms_store "98765432100")
    as (_ & _ & C1 & _).
  destruct (get_by_name_cpf_first_match homonyms_store "00000000000")
    as (_ & _ & _ & C2).
  split; [|split; [|split]].
  - apply N1. exists joao_silva. split; [simpl; tauto | reflexivity].
  - apply N2. simpl. intros a [<-|[<-|[<-|[]]]]; discriminate.
  - apply C1. exists maria. split; [simpl; tauto | reflexivity].
  - apply C2. simpl. intros a [<-|[<-|[<-|[]]]]; discriminate.
Defined.

(** With two athletes named "Joao", the lookup answers with the one stored
    first. *)
Example get_by_name_homonyms :
  atleta.get_by_name_endpoint "Joao" homonyms_store
  = (Content HTTP_200_OK joao, homonyms_store).
Proof. reflexivity. Qed.

(** ** Listing *)

Lemma for_each_total {A B} (f : A -> M B) (l : list A) (s : Store) :
  (forall x, In x l -> exists y, f x s = (Return y, s)) ->
  exists ys, for_each f l s = (Return ys, s) /\ List.length ys = List.length l.
Proof.
  induction l as [|x l IH]; intros H.
  - exists []. split; reflexivity.
  - destruct (H x (or_introl eq_refl)) as [y Hy].
    destruct IH as (ys & Hys & Hlen).
    { intros z Hz. apply H. now right. }
    exists (y :: ys). split.
    + simpl. unfold bind, ret. now rewrite Hy, Hys.
    + simpl. now rewrite Hlen.
Qed.

Lemma model_validate_total (s : Store) (a : AtletaModel.t) :
  foreign_keys s -> In a (atletas s) ->
  exists d, AtletaGetAllDetails_model_validate a s = (Return d, s).
Proof.
  intros FK Ha. destruct (FK a Ha) as [(c & Hc & Ec) (ct & Hct & Ect)].
  unfold AtletaGetAllDetails_model_validate, atleta_categoria,
    atleta_centro_treinamento.
  destruct (first_filter_found
              (fun c => Z.eqb (CategoriaModel.pk_id c) (AtletaModel.categoria_id a))
              (categorias s)) as [c' ->].
  { exists c. split; [exact Hc | now apply Z.eqb_eq]. }
  destruct (first_filter_found
              (fun c => Z.eqb (CentroTreinamentoModel.pk_id c)
                              (AtletaModel.centro_treinamento_id a))
              (centros_treinamento s)) as [ct' ->].
  { exists ct. split; [exact Hct | now apply Z.eqb_eq]. }
  eexists. reflexivity.
Qed.

(** C8: the page envelope of each listing has [total] equal to the number of
    rows of the table, for every [page] and [size] requested; the athlete
    listing reads the names through the foreign keys of each row. *)
Theorem get_all_total (s : Store) (params : Params) :
  (exists pg,
     categorias.get_all_endpoint params s = (Content HTTP_200_OK pg, s)
     /\ total pg = Z.of_nat (List.length (categorias s))
     /\ size pg = params_size params)
  /\ (exists pg,
        centro_treinamento.get_all_endpoint params s
        = (Content HTTP_200_OK pg, s)
        /\ total pg = Z.of_nat (List.length (centros_treinamento s))
        /\ size pg = params_size params)
  /\ (foreign_keys s ->
      exists pg,
        atleta.get_all_endpoint params s = (Content HTTP_200_OK pg, s)
        /\ total pg = Z.of_nat (List.length (atletas s))
        /\ size pg = params_size params).
Proof.
  split; [|split].
  - eexists. split; [reflexivity|]. split; reflexivity.
  - eexists. split; [reflexivity|]. split; reflexivity.
  - intros FK.
    destruct (for_each_total AtletaGetAllDetails_model_validate (atletas s) s)
      as (ds & Hds & Hlen).
    { intros a Ha. now apply model_validate_total. }
    exists (paginate params ds). split; [|split].
    + unfold atleta.get_all_endpoint, atleta.get_all. run_handler.
      unfold all. now rewrite Hds.
    + simpl. now rewrite Hlen.
    + reflexivity.
Qed.

Lemma sample_foreign_keys : foreign_keys sample_store.
Proof.
  intros a Ha. split.
  - exists iniciante. split; [now left|].
    simpl in Ha. destruct Ha as [<-|[<-|[]]]; reflexivity.
  - exists ct_king. split; [now left|].
    simpl in Ha. destruct Ha as [<-|[<-|[]]]; reflexivity.
Defined.

Lemma get_all_total_witness :
  exists pg,
    atleta.get_all_endpoint (mkParams 1 1) sample_store
    = (Content HTTP_200_OK pg, sample_store)
    /\ total pg = 2
    /\ size pg = 1.
Proof.
  destruct (get_all_total sample_store (mkParams 1 1)) as (_ & _ & H).
  apply H. exact sample_foreign_keys.
Defined.

(** ** Deleting an athlete *)

(** C5: deleting an athlete by an id the table holds answers 204 with no
    content, and [get_by_id] of that id on the resulting store answers 404
    with the id in the message. *)
Theorem delete_then_get_by_id (s : Store) (id : UUID4) :
  unique AtletaModel.id (atletas s) ->
  (exists a, In a (atletas s) /\ AtletaModel.id a = id) ->
  exists s' detail,
    atleta.delete_endpoint id s = (Content HTTP_204_NO_CONTENT tt, s')
    /\ atleta.get_by_id_endpoint id s' = (Error HTTP_404_NOT_FOUND detail, s')
    /\ includes (str_uuid id) detail = true.
Proof.
  intros U (a & Ha & E).
  destruct (first_filter_found (fun a => N.eqb (AtletaModel.id a) id) (atletas s))
    as [r Hr].
  { exists a. split; [exact Ha | now apply N.eqb_eq]. }
  pose proof Hr as Hm.
  apply first_filter_some, first_match_In in Hm as [Hin Hid].
  apply N.eqb_eq in Hid.
  eexists. eexists. split; [|split].
  - unfold atleta.delete_endpoint, atleta.delete. run_handler.
    rewrite Hr. unfold delete_commit_atleta. reflexivity.
  - apply (lookup_not_found _ atletas). simpl.
    intros x Hx. apply filter_In in Hx as [Hx Hpk].
    apply N.eqb_neq. intros Ex.
    assert (x = r) as ->.
    { apply (unique_inj AtletaModel.id (atletas s)); auto. congruence. }
    rewrite Z.eqb_refl in Hpk. discriminate.
  - apply includes_suffix.
Qed.

Lemma delete_then_get_by_id_witness :
  exists s' detail,
    atleta.delete_endpoint (AtletaModel.id joao) sample_store
    = (Content HTTP_204_NO_CONTENT tt, s')
    /\ atleta.get_by_id_endpoint (AtletaModel.id joao) s'
       = (Error HTTP_404_NOT_FOUND detail, s')
    /\ includes (str_uuid (AtletaModel.id joao)) detail = true.
Proof.
  apply (delete_then_get_by_id sample_store (AtletaModel.id joao)).
  - repeat constructor; simpl; intuition discriminate.
  - exists joao. split; [now left | reflexivity].
Defined.

(** ** Patching an athlete *)

Lemma setattr_items (up : AtletaUpdate.t) (r : AtletaModel.t) :
  fold_left setattr (model_dump_exclude_unset up) r
  = AtletaModel.mk (AtletaModel.pk_id r) (AtletaModel.id r)
      (patched (AtletaUpdate.nome up) (AtletaModel.nome r))
      (AtletaModel.cpf r)
      (patched (AtletaUpdate.idade up) (AtletaModel.idade r))
      (patched (AtletaUpdate.peso up) (AtletaModel.peso r))
      (patched (AtletaUpdate.altura up) (AtletaModel.altura r))
      (patched (AtletaUpdate.sexo up) (AtletaModel.sexo r))
      (AtletaModel.criado_em r) (AtletaModel.categoria_id r)
      (AtletaModel.centro_treinamento_id r).
Proof.
  destruct r, up as [[?|] [?|] [?|] [?|] [?|]]; reflexivity.
Qed.

Lemma map_overwrite (before after : list AtletaModel.t) (r r' : AtletaModel.t) :
  AtletaModel.pk_id r' = AtletaModel.pk_id r ->
  (forall x, In x before ->
     Z.eqb (AtletaModel.pk_id x) (AtletaModel.pk_id r) = false) ->
  (forall x, In x after ->
     Z.eqb (AtletaModel.pk_id x) (AtletaModel.pk_id r) = false) ->
  map (fun a => if Z.eqb (AtletaModel.pk_id a) (AtletaModel.pk_id r')
                then r' else a)
      (before ++ r :: after)
  = (before ++ r' :: after)%list.
Proof.
  intros E Hb Ha. rewrite E, map_app. simpl. rewrite Z.eqb_refl.
  f_equal; [|f_equal].
  - rewrite <- (map_id before) at 2. apply map_ext_in.
    intros x Hx. now rewrite (Hb x Hx).
  - rewrite <- (map_id after) at 2. apply map_ext_in.
    intros x Hx. now rewrite (Ha x Hx).
Qed.

(** C4: patching a stored athlete answers 200 with the row in which each
    field the patch sets has the value of the patch and every other column
    has its old value; in the table that row takes the place of the old one
    and nothing else changes. *)
Theorem partial_update_frame (s : Store) (r : AtletaModel.t)
        (up : AtletaUpdate.t) :
  unique AtletaModel.pk_id (atletas s) ->
  unique AtletaModel.id (atletas s) ->
  In r (atletas s) ->
  exists r' s' before after,
    atleta.partial_update_endpoint (AtletaModel.id r) up s
    = (Content HTTP_200_OK r', s')
    /\ AtletaModel.nome r' = patched (AtletaUpdate.nome up) (AtletaModel.nome r)
    /\ AtletaModel.idade r'
       = patched (AtletaUpdate.idade up) (AtletaModel.idade r)
    /\ AtletaModel.peso r' = patched (AtletaUpdate.peso up) (AtletaModel.peso r)
    /\ AtletaModel.altura r'
       = patched (AtletaUpdate.altura up) (AtletaModel.altura r)
    /\ AtletaModel.sexo r' = patched (AtletaUpdate.sexo up) (AtletaModel.sexo r)
    /\ AtletaModel.pk_id r' = AtletaModel.pk_id r
    /\ AtletaModel.id r' = AtletaModel.id r
    /\ AtletaModel.cpf r' = AtletaModel.cpf r
    /\ AtletaModel.criado_em r' = AtletaModel.criado_em r
    /\ AtletaModel.categoria_id r' = AtletaModel.categoria_id r
    /\ AtletaModel.centro_treinamento_id r'
       = AtletaModel.centro_treinamento_id r
    /\ atletas s = (before ++ r :: after)%list
    /\ atletas s' = (before ++ r' :: after)%list
    /\ categorias s' = categorias s
    /\ centros_treinamento s' = centros_treinamento s.
Proof.
  intros Upk Uid Hr.
  pose proof (unique_first AtletaModel.id N.eqb N.eqb_eq _ _ Uid Hr) as Hfirst.
  destruct (unique_split AtletaModel.pk_id Z.eqb Z.eqb_eq _ _ Upk Hr)
    as (b & a & Hs & Hb & Ha).
  set (r' := fold_left setattr (model_dump_exclude_unset up) r).
  assert (Epk : AtletaModel.pk_id r' = AtletaModel.pk_id r).
  { unfold r'. now rewrite setattr_items. }
  exists r', (mkStore (categorias s) (centros_treinamento s) (b ++ r' :: a)).
  exists b, a.
  split.
  - unfold atleta.partial_update_endpoint, atleta.partial_update. run_handler.
    rewrite Hfirst. fold r'. unfold commit_atleta, refresh. simpl.
    rewrite Hs, (map_overwrite b a r r' Epk Hb Ha).
    replace (first (filter _ (b ++ r' :: a))) with (Some r'); [reflexivity|].
    symmetry. apply first_filter_some. exists b, a.
    split; [reflexivity|]. split; [apply Z.eqb_refl|].
    intros x Hx. rewrite Epk. now apply Hb.
  - unfold r'. rewrite setattr_items. simpl. repeat split; auto.
Qed.

(** The patch [{"peso": 80.5}] on the second athlete of the sample store. *)
Lemma partial_update_frame_witness :
  exists r' s' before after,
    atleta.partial_update_endpoint (AtletaModel.id maria)
      (AtletaUpdate.mk None None (Some 80.5%float) None None) sample_store
    = (Content HTTP_200_OK r', s')
    /\ AtletaModel.nome r' = "Maria"
    /\ AtletaModel.idade r' = 31
    /\ AtletaModel.peso r' = 80.5%float
    /\ AtletaModel.altura r' = 1.625%float
    /\ AtletaModel.sexo r' = "F"
    /\ AtletaModel.pk_id r' = 2
    /\ AtletaModel.id r' = AtletaModel.id maria
    /\ AtletaModel.cpf r' = "98765432100"
    /\ AtletaModel.criado_em r' = 1700000500000000
    /\ AtletaModel.categoria_id r' = 1
    /\ AtletaModel.centro_treinamento_id r' = 1
    /\ atletas sample_store = (before ++ maria :: after)%list
    /\ atletas s' = (before ++ r' :: after)%list
    /\ categorias s' = [iniciante]
    /\ centros_treinamento s' = [ct_king].
Proof.
  apply (partial_update_frame sample_store maria
           (AtletaUpdate.mk None None (Some 80.5%float) None None)).
  - repeat constructor; simpl; intuition discriminate.
  - repeat constructor; simpl; intuition discriminate.
  - right. now left.
Defined.

(** ** Creating an athlete and reading it back *)

(** C6, as stated, fails: category and training center of [joao_in] are in
    the sample store, and so is an athlete with its [cpf]; the answer is the
    303 of the uniqueness violation, not the created athlete. *)
Lemma post_existing_cpf_counterexample :
  (exists c, In c (categorias sample_store)
             /\ CategoriaModel.nome c = CategoriaIn.nome (AtletaIn.categoria joao_in))
  /\ (exists c, In c (centros_treinamento sample_store)
                /\ CentroTreinamentoModel.nome c
                   = CentroTreinamentoAtleta.nome
                       (AtletaIn.centro_treinamento joao_in))
  /\ atleta.post_endpoint generated_uuid request_time joao_in sample_store
     = (Error HTTP_303_SEE_OTHER
          "Já existe um atleta cadastrado com o cpf: 12345678900",
        sample_store)
  /\ ~ exists out s',
         atleta.post_endpoint generated_uuid request_time joao_in sample_store
         = (Content HTTP_201_CREATED out, s').
Proof.
  split; [|split; [|split]].
  - exists iniciante. split; [now left | reflexivity].
  - exists ct_king. split; [now left | reflexivity].
  - reflexivity.
  - intros (out & s' & H). vm_compute in H. discriminate.
Qed.

(** C6, amended: when the category and the training center named by the
    input are stored, no stored athlete has the input's [cpf] and [uuid4()]
    yields an id no stored athlete has, creating the athlete answers 201 with
    the input's fields, its two nested objects, the generated [id] and
    [criado_em]; [get_by_id] of that id then answers 200 with the new row,
    whose output shape is the one [post] returned. *)
Theorem post_then_get_by_id uuid utcnow atleta_in s :
  unique CategoriaModel.pk_id (categorias s) ->
  unique CentroTreinamentoModel.pk_id (centros_treinamento s) ->
  (exists c, In c (categorias s)
     /\ CategoriaModel.nome c = CategoriaIn.nome (AtletaIn.categoria atleta_in)) ->
  (exists c, In c (centros_treinamento s)
     /\ CentroTreinamentoModel.nome c
        = CentroTreinamentoAtleta.nome (AtletaIn.centro_treinamento atleta_in)) ->
  (forall a, In a (atletas s) -> AtletaModel.cpf a <> AtletaIn.cpf atleta_in) ->
  (forall a, In a (atletas s) -> AtletaModel.id a <> uuid) ->
  exists out s' row,
    atleta.post_endpoint uuid utcnow atleta_in s
    = (Content HTTP_201_CREATED out, s')
    /\ out = AtletaOut.mk uuid utcnow
               (AtletaIn.nome atleta_in) (AtletaIn.cpf atleta_in)
               (AtletaIn.idade atleta_in) (AtletaIn.peso atleta_in)
               (AtletaIn.altura atleta_in) (AtletaIn.sexo atleta_in)
               (AtletaIn.categoria atleta_in)
               (AtletaIn.centro_treinamento atleta_in)
    /\ atletas s' = (atletas s ++ [row])%list
    /\ atleta.get_by_id_endpoint uuid s' = (Content HTTP_200_OK row, s')
    /\ AtletaOut_model_validate s' row = Some out.
Proof.
  intros Ucat Uct Hcat Hct Hcpf Hid.
  destruct (categoria_present s _ Hcat) as (c & Fc & Hc & Ec).
  destruct (centro_treinamento_present s _ Hct) as (ct & Fct & Hcti & Ect).
  set (row := AtletaModel.mk (next_pk AtletaModel.pk_id (atletas s)) uuid
                (AtletaIn.nome atleta_in) (AtletaIn.cpf atleta_in)
                (AtletaIn.idade atleta_in) (AtletaIn.peso atleta_in)
                (AtletaIn.altura atleta_in) (AtletaIn.sexo atleta_in)
                utcnow (CategoriaModel.pk_id c)
                (CentroTreinamentoModel.pk_id ct)).
  set (s' := mkStore (categorias s) (centros_treinamento s)
               (atletas s ++ [row])).
  eexists. exists s', row.
  split; [|split; [reflexivity|split; [reflexivity|split]]].
  - unfold atleta.post_endpoint, atleta.post. run_handler.
    rewrite Fc, Fct. unfold add_commit_atleta. simpl.
    replace (has _ (atletas s)) with false.
    2:{ symmetry. apply has_false. intros a Ha.
        apply String.eqb_neq. now apply Hcpf. }
    replace (has _ (categorias s)) with true.
    2:{ symmetry. apply has_true. exists c. split; [exact Hc | apply Z.eqb_refl]. }
    replace (has _ (centros_treinamento s)) with true.
    2:{ symmetry. apply has_true. exists ct.
        split; [exact Hcti | apply Z.eqb_refl]. }
    reflexivity.
  - unfold atleta.get_by_id_endpoint, atleta.get_by_id. run_handler.
    replace (first (filter _ (atletas s ++ [row]))) with (Some row);
      [reflexivity|].
    symmetry. apply first_filter_some. exists (atletas s), [].
    split; [reflexivity|]. split; [apply N.eqb_refl|].
    intros a Ha. apply N.eqb_neq. now apply Hid.
  - unfold AtletaOut_model_validate, atleta_categoria,
      atleta_centro_treinamento. simpl.
    rewrite (unique_first CategoriaModel.pk_id Z.eqb Z.eqb_eq _ _ Ucat Hc).
    rewrite (unique_first CentroTreinamentoModel.pk_id Z.eqb Z.eqb_eq _ _
               Uct Hcti).
    rewrite Ec, Ect.
    destruct atleta_in as [? ? ? ? ? ? [?] [?]]. reflexivity.
Qed.

Lemma post_then_get_by_id_witness :
  exists out s' row,
    atleta.post_endpoint generated_uuid request_time ana_in sample_store
    = (Content HTTP_201_CREATED out, s')
    /\ out = AtletaOut.mk generated_uuid request_time
               "Ana" "11122233344" 20 60.5 1.5 "F"
               (CategoriaIn.mk "Iniciante")
               (CentroTreinamentoAtleta.mk "CT King")
    /\ atletas s' = [joao; maria; row]
    /\ atleta.get_by_id_endpoint generated_uuid s'
       = (Content HTTP_200_OK row, s')
    /\ AtletaOut_model_validate s' row = Some out.
Proof.
  apply (post_then_get_by_id generated_uuid request_time ana_in sample_store).
  - repeat constructor. simpl. tauto.
  - repeat constructor. simpl. tauto.
  - exists iniciante. split; [now left | reflexivity].
  - exists ct_king. split; [now left | reflexivity].
  - simpl. intros a [<-|[<-|[]]]; discriminate.
  - simpl. intros a [<-|[<-|[]]]; discriminate.
Defined.

(** ** The constraints hold in every store the handlers produce *)

Lemma next_pk_above {A} (pk : A -> Z) (rows : list A) (r : A) :
  In r rows -> pk r < next_pk pk rows.
Proof.
  unfold next_pk. induction rows as [|x rows IH]; cbn [map fold_right In];
    [intros []|].
  intros [->|Hr]; [lia|]. specialize (IH Hr). lia.
Qed.

Lemma unique_snoc {A B} (col : A -> B) (rows : list A) (r : A) :
  unique col rows -> (forall x, In x rows -> col x <> col r) ->
  unique col (rows ++ [r]).
Proof.
  unfold unique. intros U H. rewrite map_app. simpl.
  apply NoDup_rev in U. rewrite <- (rev_involutive (map col rows ++ [col r])).
  apply NoDup_rev. rewrite rev_app_distr. simpl. constructor; [|exact U].
  rewrite <- in_rev. intros Hin. apply in_map_iff in Hin as (x & E & Hx).
  now apply (H x Hx).
Qed.

Lemma unique_filter {A B} (col : A -> B) (p : A -> bool) (rows : list A) :
  unique col rows -> unique col (filter p rows).
Proof.
  unfold unique. induction rows as [|x rows IH]; simpl; [auto|].
  intros U. apply NoDup_cons_iff in U as [Hx U].
  destruct (p x); simpl; [|now apply IH].
  constructor; [|now apply IH].
  intros Hin. apply Hx. apply in_map_iff in Hin as (y & E & Hy).
  apply filter_In in Hy as [Hy _]. rewrite <- E. now apply in_map.
Qed.

Lemma overwrite_column {B} (col : AtletaModel.t -> B)
      (rows : list AtletaModel.t) (r r' : AtletaModel.t) :
  unique AtletaModel.pk_id rows -> In r rows ->
  AtletaModel.pk_id r' = AtletaModel.pk_id r -> col r' = col r ->
  map col (map (fun a => if Z.eqb (AtletaModel.pk_id a) (AtletaModel.pk_id r')
                         then r' else a) rows)
  = map col rows.
Proof.
  intros U Hr Epk Ecol. rewrite map_map. apply map_ext_in. intros a Ha.
  destruct (Z.eqb (AtletaModel.pk_id a) (AtletaModel.pk_id r')) eqn:E;
    [|reflexivity].
  apply Z.eqb_eq in E. rewrite Epk in E.
  now rewrite Ecol, (unique_inj AtletaModel.pk_id rows a r U Ha Hr E).
Qed.

Lemma categorias_create_constraints uuid categoria_in s out s' :
  constraints s -> categorias.create uuid categoria_in s = (out, s') ->
  constraints s'.
Proof.
  intros [Cpk Cn Tpk Tn Apk Acpf FK].
  unfold categorias.create, add_commit_categoria. run_handler.
  destruct (has _ (categorias s)) eqn:Hhas; intros [= _ <-];
    [now constructor|].
  rewrite has_false in Hhas.
  constructor; simpl; auto.
  - apply unique_snoc; auto. simpl. intros x Hx.
    pose proof (next_pk_above CategoriaModel.pk_id _ _ Hx). lia.
  - apply unique_snoc; auto. simpl. intros x Hx.
    apply String.eqb_neq. now apply Hhas.
  - intros a Ha. destruct (FK a Ha) as [(c & Hc & Ec) Hct]. split; [|exact Hct].
    exists c. split; [|exact Ec]. simpl. apply in_or_app. now left.
Qed.

Lemma centro_treinamento_create_constraints uuid centro_in s out s' :
  constraints s -> centro_treinamento.create uuid centro_in s = (out, s') ->
  constraints s'.
Proof.
  intros [Cpk Cn Tpk Tn Apk Acpf FK].
  unfold centro_treinamento.create, add_commit_centro_treinamento. run_handler.
  destruct (has _ (centros_treinamento s)) eqn:Hhas; intros [= _ <-];
    [now constructor|].
  rewrite has_false in Hhas.
  constructor; simpl; auto.
  - apply unique_snoc; auto. simpl. intros x Hx.
    pose proof (next_pk_above CentroTreinamentoModel.pk_id _ _ Hx). lia.
  - apply unique_snoc; auto. simpl. intros x Hx.
    apply String.eqb_neq. now apply Hhas.
  - intros a Ha. destruct (FK a Ha) as [Hc (c & Hct & Ec)]. split; [exact Hc|].
    exists c. split; [|exact Ec]. simpl. apply in_or_app. now left.
Qed.

Lemma post_constraints uuid utcnow atleta_in s out s' :
  constraints s -> atleta.post uuid utcnow atleta_in s = (out, s') ->
  constraints s'.
Proof.
  intros [Cpk Cn Tpk Tn Apk Acpf FK].
  unfold atleta.post. run_handler.
  destruct (first (filter _ (categorias s))) as [c|] eqn:Fc;
    [|intros [= _ <-]; now constructor].
  destruct (first (filter _ (centros_treinamento s))) as [ct|] eqn:Fct;
    [|intros [= _ <-]; now constructor].
  unfold add_commit_atleta. simpl.
  destruct (has _ (atletas s)) eqn:Hcpf; simpl;
    [intros [= _ <-]; now constructor|].
  destruct (has _ (categorias s)) eqn:Hc; simpl;
    [|intros [= _ <-]; now constructor].
  destruct (has _ (centros_treinamento s)) eqn:Hct; simpl;
    [|intros [= _ <-]; now constructor].
  intros [= _ <-]. rewrite has_false in Hcpf.
  apply has_true in Hc as (c' & Hc' & Ec').
  apply has_true in Hct as (ct' & Hct' & Ect').
  apply Z.eqb_eq in Ec', Ect'.
  constructor; simpl; auto.
  - apply unique_snoc; auto. simpl. intros x Hx.
    pose proof (next_pk_above AtletaModel.pk_id _ _ Hx). lia.
  - apply unique_snoc; auto. simpl. intros x Hx.
    apply String.eqb_neq. now apply Hcpf.
  - intros a Ha. simpl in Ha. apply in_app_or in Ha as [Ha|[<-|[]]].
    + now apply FK.
    + simpl. split; [now exists c' | now exists ct'].
Qed.

Lemma delete_constraints id s out s' :
  constraints s -> atleta.delete id s = (out, s') -> constraints s'.
Proof.
  intros [Cpk Cn Tpk Tn Apk Acpf FK].
  unfold atleta.delete. run_handler.
  destruct (first (filter _ (atletas s))) as [r|] eqn:Fr;
    [|intros [= _ <-]; now constructor].
  unfold delete_commit_atleta. intros [= _ <-].
  constructor; simpl; auto using unique_filter.
  intros a Ha. simpl in Ha. apply filter_In in Ha as [Ha _]. now apply FK.
Qed.

(** The store a patch leaves: the old one, or the old one with the row of
    the patched athlete overwritten. *)
Lemma partial_update_store id up s out s' :
  atleta.partial_update id up s = (out, s') ->
  s' = s
  \/ exists r,
       In r (atletas s)
       /\ s' = mkStore (categorias s) (centros_treinamento s)
                 (map (fun a =>
                         if Z.eqb (AtletaModel.pk_id a) (AtletaModel.pk_id r)
                         then fold_left setattr (model_dump_exclude_unset up) r
                         else a)
                      (atletas s)).
Proof.
  unfold atleta.partial_update. run_handler.
  destruct (first (filter _ (atletas s))) as [r|] eqn:Fr;
    [|intros [= _ <-]; now left].
  apply first_filter_some, first_match_In in Fr as [Hr _].
  unfold commit_atleta, refresh. cbn [fst snd atletas].
  assert (Epk : AtletaModel.pk_id
                  (fold_left setattr (model_dump_exclude_unset up) r)
                = AtletaModel.pk_id r) by now rewrite setattr_items.
  rewrite Epk.
  match goal with |- context [first ?l] => destruct (first l) end;
    intros [= _ <-]; right; exists r; (split; [exact Hr | reflexivity]).
Qed.

Lemma partial_update_constraints id up s out s' :
  constraints s -> atleta.partial_update id up s = (out, s') -> constraints s'.
Proof.
  intros C H. apply partial_update_store in H as [->|(r & Hr & ->)];
    [exact C|].
  destruct C as [Cpk Cn Tpk Tn Apk Acpf FK].
  pose proof (setattr_items up r) as Er.
  set (r' := fold_left setattr (model_dump_exclude_unset up) r) in *.
  assert (Epk : AtletaModel.pk_id r' = AtletaModel.pk_id r) by now rewrite Er.
  rewrite <- Epk.
  constructor; cbn [categorias centros_treinamento atletas]; auto.
  - unfold unique. rewrite (overwrite_column _ _ r r'); auto.
  - unfold unique. rewrite (overwrite_column _ _ r r'); auto. now rewrite Er.
  - intros y Hy. cbn [atletas] in Hy. apply in_map_iff in Hy as (x & Ex & Hx).
    destruct (Z.eqb _ _) in Ex; subst y; [|now apply FK].
    rewrite Er. cbn [AtletaModel.categoria_id AtletaModel.centro_treinamento_id].
    now apply FK.
Qed.

Lemma empty_store_constraints : constraints empty_store.
Proof. constructor; try apply NoDup_nil. intros a []. Qed.

(** The external ids of the athletes stay distinct as long as [uuid4()]
    yields an id no stored athlete has. *)
Lemma post_ids_distinct uuid utcnow atleta_in s out s' :
  unique AtletaModel.id (atletas s) ->
  (forall a, In a (atletas s) -> AtletaModel.id a <> uuid) ->
  atleta.post uuid utcnow atleta_in s = (out, s') ->
  unique AtletaModel.id (atletas s').
Proof.
  intros U Hfresh. unfold atleta.post. run_handler.
  destruct (first (filter _ (categorias s))); [|now intros [= _ <-]].
  destruct (first (filter _ (centros_treinamento s))); [|now intros [= _ <-]].
  unfold add_commit_atleta. simpl.
  destruct (_ || _ || _); simpl; intros [= _ <-]; [exact U|].
  simpl. now apply unique_snoc.
Qed.

Lemma delete_ids_distinct id s out s' :
  unique AtletaModel.id (atletas s) -> atleta.delete id s = (out, s') ->
  unique AtletaModel.id (atletas s').
Proof.
  intros U. unfold atleta.delete. run_handler.
  destruct (first (filter _ (atletas s))); [|now intros [= _ <-]].
  unfold delete_commit_atleta. intros [= _ <-]. simpl.
  now apply unique_filter.
Qed.

Lemma partial_update_ids_distinct id up s out s' :
  unique AtletaModel.pk_id (atletas s) ->
  unique AtletaModel.id (atletas s) ->
  atleta.partial_update id up s = (out, s') ->
  unique AtletaModel.id (atletas s').
Proof.
  intros Upk U H. apply partial_update_store in H as [->|(r & Hr & ->)];
    [exact U|].
  pose proof (setattr_items up r) as Er.
  set (r' := fold_left setattr (model_dump_exclude_unset up) r) in *.
  assert (Epk : AtletaModel.pk_id r' = AtletaModel.pk_id r) by now rewrite Er.
  rewrite <- Epk. cbn [atletas]. unfold unique.
  rewrite (overwrite_column _ _ r r'); auto. now rewrite Er.
Qed.

(** X19: every store the requests reach from the empty database satisfies
    the table constraints (unique keys, names and [cpf], foreign keys that
    name stored rows) and gives its athletes distinct external ids, provided
    each generated id is one no stored athlete has. *)
Lemma reachable_constraints (s : Store) :
  reachable s -> constraints s /\ unique AtletaModel.id (atletas s).
Proof.
  induction 1 as [|s rq _ [C U] F].
  - split; [apply empty_store_constraints | apply NoDup_nil].
  - destruct rq as [uuid cin|uuid cin|uuid utcnow ain|id up|id]; simpl.
    + destruct (categorias.create uuid cin s) as [out s'] eqn:E. simpl. split.
      * now apply (categorias_create_constraints _ _ _ _ _ C E).
      * revert E. unfold categorias.create, add_commit_categoria. run_handler.
        destruct (has _ _); now intros [= _ <-].
    + destruct (centro_treinamento.create uuid cin s) as [out s'] eqn:E.
      simpl. split.
      * now apply (centro_treinamento_create_constraints _ _ _ _ _ C E).
      * revert E.
        unfold centro_treinamento.create, add_commit_centro_treinamento.
        run_handler. destruct (has _ _); now intros [= _ <-].
    + destruct (atleta.post uuid utcnow ain s) as [out s'] eqn:E. simpl. split.
      * now apply (post_constraints _ _ _ _ _ _ C E).
      * now apply (post_ids_distinct _ _ _ _ _ _ U F E).
    + destruct (atleta.partial_update id up s) as [out s'] eqn:E. simpl. split.
      * now apply (partial_update_constraints _ _ _ _ _ C E).
      * apply (partial_update_ids_distinct _ _ _ _ _ (atletas_pk s C) U E).
    + destruct (atleta.delete id s) as [out s'] eqn:E. simpl. split.
      * now apply (delete_constraints _ _ _ _ C E).
      * now apply (delete_ids_distinct _ _ _ _ U E).
Qed.

(** The sample store is reachable up to the ids and the dates: the same
    requests, served in order, build its tables. *)
Example sample_store_reachable :
  serve (POST_atletas (AtletaModel.id maria) (AtletaModel.criado_em maria)
           (AtletaIn.mk "Maria" "98765432100" 31 62.5 1.625 "F"
              (CategoriaIn.mk "Iniciante") (CentroTreinamentoAtleta.mk "CT King")))
    (serve (POST_atletas (AtletaModel.id joao) (AtletaModel.criado_em joao)
              joao_in)
       (serve (POST_centros_treinamento (CentroTreinamentoModel.id ct_king)
                 (CentroTreinamentoIn.mk "CT King" "Rua X, Q02" "Marcos"))
          (serve (POST_categorias (CategoriaModel.id iniciante)
                    (CategoriaIn.mk "Iniciante"))
             empty_store)))
  = sample_store.
Proof. reflexivity. Qed.

(** ** Creating an athlete: the three outcomes after the checks *)

Lemma post_created uuid utcnow atleta_in s :
  (exists c, In c (categorias s)
     /\ CategoriaModel.nome c = CategoriaIn.nome (AtletaIn.categoria atleta_in)) ->
  (exists c, In c (centros_treinamento s)
     /\ CentroTreinamentoModel.nome c
        = CentroTreinamentoAtleta.nome (AtletaIn.centro_treinamento atleta_in)) ->
  (forall a, In a (atletas s) -> AtletaModel.cpf a <> AtletaIn.cpf atleta_in) ->
  exists c ct,
    In c (categorias s) /\ In ct (centros_treinamento s)
    /\ atleta.post_endpoint uuid utcnow atleta_in s
       = (Content HTTP_201_CREATED (created_out uuid utcnow atleta_in),
          mkStore (categorias s) (centros_treinamento s)
            (atletas s ++ [created_row s uuid utcnow atleta_in c ct])).
Proof.
  intros Hcat Hct Hcpf.
  destruct (categoria_present s _ Hcat) as (c & Fc & Hc & Ec).
  destruct (centro_treinamento_present s _ Hct) as (ct & Fct & Hcti & Ect).
  exists c, ct. split; [exact Hc|]. split; [exact Hcti|].
  unfold atleta.post_endpoint, atleta.post. run_handler.
  rewrite Fc, Fct. unfold add_commit_atleta. simpl.
  replace (has _ (atletas s)) with false.
  2:{ symmetry. apply has_false. intros a Ha.
      apply String.eqb_neq. now apply Hcpf. }
  replace (has _ (categorias s)) with true.
  2:{ symmetry. apply has_true. exists c.
      split; [exact Hc | apply Z.eqb_refl]. }
  replace (has _ (centros_treinamento s)) with true.
  2:{ symmetry. apply has_true. exists ct.
      split; [exact Hcti | apply Z.eqb_refl]. }
  reflexivity.
Qed.

Lemma post_cpf_taken uuid utcnow atleta_in s :
  (exists c, In c (categorias s)
     /\ CategoriaModel.nome c = CategoriaIn.nome (AtletaIn.categoria atleta_in)) ->
  (exists c, In c (centros_treinamento s)
     /\ CentroTreinamentoModel.nome c
        = CentroTreinamentoAtleta.nome (AtletaIn.centro_treinamento atleta_in)) ->
  (exists a, In a (atletas s) /\ AtletaModel.cpf a = AtletaIn.cpf atleta_in) ->
  atleta.post_endpoint uuid utcnow atleta_in s
  = (Error HTTP_303_SEE_OTHER
       ("Já existe um atleta cadastrado com o cpf: " ++ AtletaIn.cpf atleta_in),
     s).
Proof.
  intros Hcat Hct (a & Ha & Ea).
  destruct (categoria_present s _ Hcat) as (c & Fc & _).
  destruct (centro_treinamento_present s _ Hct) as (ct & Fct & _).
  unfold atleta.post_endpoint, atleta.post. run_handler.
  rewrite Fc, Fct. unfold add_commit_atleta. simpl.
  replace (has _ (atletas s)) with true; [reflexivity|].
  symmetry. apply has_true. exists a. split; [exact Ha|].
  now apply String.eqb_eq.
Qed.

(** What a 201 of [post] tells about the store it ran on. *)
Lemma post_created_inv uuid utcnow atleta_in s out s1 :
  atleta.post_endpoint uuid utcnow atleta_in s
  = (Content HTTP_201_CREATED out, s1) ->
  (exists c, In c (categorias s)
     /\ CategoriaModel.nome c = CategoriaIn.nome (AtletaIn.categoria atleta_in))
  /\ (exists c, In c (centros_treinamento s)
        /\ CentroTreinamentoModel.nome c
           = CentroTreinamentoAtleta.nome
               (AtletaIn.centro_treinamento atleta_in))
  /\ (forall a, In a (atletas s) ->
        AtletaModel.cpf a <> AtletaIn.cpf atleta_in).
Proof.
  unfold atleta.post_endpoint, atleta.post. run_handler.
  destruct (first (filter _ (categorias s))) as [c|] eqn:Fc;
    [|discriminate].
  destruct (first (filter _ (centros_treinamento s))) as [ct|] eqn:Fct;
    [|discriminate].
  apply first_filter_some, first_match_In in Fc as [Hc Ec].
  apply first_filter_some, first_match_In in Fct as [Hct Ect].
  apply String.eqb_eq in Ec, Ect.
  unfold add_commit_atleta. simpl.
  destruct (has _ (atletas s)) eqn:Hcpf; simpl; [discriminate|].
  intros _. split; [now exists c|]. split; [now exists ct|].
  rewrite has_false in Hcpf. intros a Ha. apply String.eqb_neq.
  now apply Hcpf.
Qed.

(** X1: when the category and the training center of the input are stored
    and an athlete with the input's [cpf] is stored too, creating the athlete
    answers 303, the message carries that [cpf], and the store is the one
    before the call. *)
Theorem post_duplicate_cpf uuid utcnow atleta_in s :
  (exists c, In c (categorias s)
     /\ CategoriaModel.nome c = CategoriaIn.nome (AtletaIn.categoria atleta_in)) ->
  (exists c, In c (centros_treinamento s)
     /\ CentroTreinamentoModel.nome c
        = CentroTreinamentoAtleta.nome (AtletaIn.centro_treinamento atleta_in)) ->
  (exists a, In a (atletas s) /\ AtletaModel.cpf a = AtletaIn.cpf atleta_in) ->
  exists detail,
    atleta.post_endpoint uuid utcnow atleta_in s
    = (Error HTTP_303_SEE_OTHER detail, s)
    /\ includes (AtletaIn.cpf atleta_in) detail = true.
Proof.
  intros Hcat Hct Hcpf. eexists. split.
  - now apply post_cpf_taken.
  - apply includes_suffix.
Qed.

Lemma post_duplicate_cpf_witness :
  exists detail,
    atleta.post_endpoint generated_uuid request_time maria_in sample_store
    = (Error HTTP_303_SEE_OTHER detail, sample_store)
    /\ includes "98765432100" detail = true.
Proof.
  apply (post_duplicate_cpf generated_uuid request_time maria_in sample_store).
  - exists iniciante. split; [now left | reflexivity].
  - exists ct_king. split; [now left | reflexivity].
  - exists maria. split; [right; now left | reflexivity].
Defined.

(** X2: when the category of the input is stored and its training center is
    not, creating the athlete answers 400 and the store is the one before the
    call; the message is built around the category name. *)
Theorem post_centro_treinamento_missing uuid utcnow atleta_in s :
  (exists c, In c (categorias s)
     /\ CategoriaModel.nome c = CategoriaIn.nome (AtletaIn.categoria atleta_in)) ->
  (forall c, In c (centros_treinamento s) ->
     CentroTreinamentoModel.nome c
     <> CentroTreinamentoAtleta.nome (AtletaIn.centro_treinamento atleta_in)) ->
  exists detail,
    atleta.post_endpoint uuid utcnow atleta_in s
    = (Error HTTP_400_BAD_REQUEST detail, s)
    /\ detail = "O centro de treinamento "
                  ++ CategoriaIn.nome (AtletaIn.categoria atleta_in)
                  ++ " não foi encontrado."
    /\ includes (CategoriaIn.nome (AtletaIn.categoria atleta_in)) detail = true.
Proof.
  intros Hcat Hct. eexists. split; [|split; [reflexivity|]].
  - now apply post_without_centro_treinamento.
  - apply includes_app.
Qed.

Lemma post_centro_treinamento_missing_witness :
  exists detail,
    atleta.post_endpoint generated_uuid request_time
      (AtletaIn.mk "Ana" "11122233344" 20 60.5 1.5 "F"
         (CategoriaIn.mk "Iniciante") (CentroTreinamentoAtleta.mk "CT Queen"))
      sample_store
    = (Error HTTP_400_BAD_REQUEST detail, sample_store)
    /\ detail = "O centro de treinamento Iniciante não foi encontrado."
    /\ includes "Iniciante" detail = true.
Proof.
  apply (post_centro_treinamento_missing generated_uuid request_time
           (AtletaIn.mk "Ana" "11122233344" 20 60.5 1.5 "F"
              (CategoriaIn.mk "Iniciante")
              (CentroTreinamentoAtleta.mk "CT Queen"))
           sample_store).
  - exists iniciante. split; [now left | reflexivity].
  - simpl. intros c [<-|[]]. discriminate.
Defined.

(** X3: when [post] answers 201, the athlete is the last row of the table,
    [get_by_cpf] of the input's [cpf] answers 200 with that row, and the row
    has the generated id, the creation time and the scalar fields of the
    input; the other two tables are untouched. *)
Theorem post_then_get_by_cpf uuid utcnow atleta_in s out s1 :
  atleta.post_endpoint uuid utcnow atleta_in s
  = (Content HTTP_201_CREATED out, s1) ->
  exists row,
    atletas s1 = (atletas s ++ [row])%list
    /\ categorias s1 = categorias s
    /\ centros_treinamento s1 = centros_treinamento s
    /\ atleta.get_by_cpf_endpoint (AtletaIn.cpf atleta_in) s1
       = (Content HTTP_200_OK row, s1)
    /\ AtletaModel.id row = uuid
    /\ AtletaModel.criado_em row = utcnow
    /\ AtletaModel.nome row = AtletaIn.nome atleta_in
    /\ AtletaModel.cpf row = AtletaIn.cpf atleta_in
    /\ AtletaModel.idade row = AtletaIn.idade atleta_in
    /\ AtletaModel.peso row = AtletaIn.peso atleta_in
    /\ AtletaModel.altura row = AtletaIn.altura atleta_in
    /\ AtletaModel.sexo row = AtletaIn.sexo atleta_in.
Proof.
  intros H. pose proof H as Hinv.
  apply post_created_inv in Hinv as (Hcat & Hct & Hcpf).
  destruct (post_created uuid utcnow atleta_in s Hcat Hct Hcpf)
    as (c & ct & _ & _ & E).
  rewrite E in H. injection H as _ <-.
  exists (created_row s uuid utcnow atleta_in c ct).
  repeat split.
  unfold atleta.get_by_cpf_endpoint, atleta.get_by_cpf. run_handler.
  replace (first (filter _ (atletas s ++ _))) with
    (Some (created_row s uuid utcnow atleta_in c ct)); [reflexivity|].
  symmetry. apply first_filter_some. exists (atletas s), [].
  split; [reflexivity|]. split; [apply String.eqb_refl|].
  intros a Ha. apply String.eqb_neq. now apply Hcpf.
Qed.

Lemma post_then_get_by_cpf_witness :
  exists row,
    [joao; maria; created_row sample_store generated_uuid request_time ana_in
                    iniciante ct_king]
    = [joao; maria; row]
    /\ atleta.get_by_cpf_endpoint "11122233344"
         (mkStore [iniciante] [ct_king]
            [joao; maria;
             created_row sample_store generated_uuid request_time ana_in
               iniciante ct_king])
       = (Content HTTP_200_OK row,
          mkStore [iniciante] [ct_king]
            [joao; maria;
             created_row sample_store generated_uuid request_time ana_in
               iniciante ct_king])
    /\ AtletaModel.id row = generated_uuid
    /\ AtletaModel.cpf row = "11122233344".
Proof.
  destruct (post_then_get_by_cpf generated_uuid request_time ana_in
              sample_store
              (created_out generated_uuid request_time ana_in)
              (mkStore [iniciante] [ct_king]
                 [joao; maria;
                  created_row sample_store generated_uuid request_time ana_in
                    iniciante ct_king]))
    as (row & H1 & _ & _ & H4 & H5 & _ & _ & H8 & _).
  - reflexivity.
  - exists row. split; [exact H1|]. split; [exact H4|].
    split; [exact H5 | exact H8].
Defined.

(** X4: when [post] answers 201, posting the same input again, whatever id
    and time the second call generates, answers 303 with the [cpf] in the
    message and stores nothing. *)
Theorem post_twice uuid utcnow uuid' utcnow' atleta_in s out s1 :
  atleta.post_endpoint uuid utcnow atleta_in s
  = (Content HTTP_201_CREATED out, s1) ->
  exists detail,
    atleta.post_endpoint uuid' utcnow' atleta_in s1
    = (Error HTTP_303_SEE_OTHER detail, s1)
    /\ includes (AtletaIn.cpf atleta_in) detail = true.
Proof.
  intros H. pose proof H as Hinv.
  apply post_created_inv in Hinv as (Hcat & Hct & Hcpf).
  destruct (post_created uuid utcnow atleta_in s Hcat Hct Hcpf)
    as (c & ct & _ & _ & E).
  rewrite E in H. injection H as _ <-.
  eexists. split; [|apply includes_suffix].
  apply post_cpf_taken; auto.
  exists (created_row s uuid utcnow atleta_in c ct). split; [|reflexivity].
  simpl. apply in_or_app. right. now left.
Qed.

Lemma post_twice_witness :
  exists detail,
    atleta.post_endpoint unknown_uuid (request_time + 1) ana_in
      (mkStore [iniciante] [ct_king]
         [joao; maria;
          created_row sample_store generated_uuid request_time ana_in
            iniciante ct_king])
    = (Error HTTP_303_SEE_OTHER detail,
       mkStore [iniciante] [ct_king]
         [joao; maria;
          created_row sample_store generated_uuid request_time ana_in
            iniciante ct_king])
    /\ includes "11122233344" detail = true.
Proof.
  apply (post_twice generated_uuid request_time unknown_uuid
           (request_time + 1) ana_in sample_store
           (created_out generated_uuid request_time ana_in)).
  reflexivity.
Defined.

(** ** Creating categories and training centers *)

Lemma categorias_create_taken uuid categoria_in s :
  (exists c, In c (categorias s)
             /\ CategoriaModel.nome c = CategoriaIn.nome categoria_in) ->
  categorias.create_endpoint uuid categoria_in s
  = (Error HTTP_303_SEE_OTHER
       ("Já existe uma categoria cadastrada com esse nome: "
          ++ CategoriaIn.nome categoria_in),
     s).
Proof.
  intros (c & Hc & E).
  unfold categorias.create_endpoint, categorias.create, add_commit_categoria.
  run_handler.
  replace (has _ (categorias s)) with true; [reflexivity|].
  symmetry. apply has_true. exists c. split; [exact Hc|].
  now apply String.eqb_eq.
Qed.

Lemma centro_treinamento_create_new_nome uuid centro_in s :
  (forall c, In c (centros_treinamento s) ->
     CentroTreinamentoModel.nome c <> CentroTreinamentoIn.nome centro_in) ->
  centro_treinamento.create_endpoint uuid centro_in s
  = (Content HTTP_201_CREATED
       (CentroTreinamentoOut.mk uuid (CentroTreinamentoIn.nome centro_in)
          (CentroTreinamentoIn.endereco centro_in)
          (CentroTreinamentoIn.proprietario centro_in)),
     mkStore (categorias s)
       (centros_treinamento s
          ++ [CentroTreinamentoModel.mk
                (next_pk CentroTreinamentoModel.pk_id (centros_treinamento s))
                uuid (CentroTreinamentoIn.nome centro_in)
                (CentroTreinamentoIn.endereco centro_in)
                (CentroTreinamentoIn.proprietario centro_in)])
       (atletas s)).
Proof.
  intros H.
  unfold centro_treinamento.create_endpoint, centro_treinamento.create,
    add_commit_centro_treinamento.
  run_handler.
  replace (has _ (centros_treinamento s)) with false; [reflexivity|].
  symmetry. apply has_false. intros c Hc. apply String.eqb_neq. now apply H.
Qed.

(** Whatever [create] answers, afterwards a row of the table has the [nome]
    of the input, and the other tables are the ones before the call. *)
Lemma categorias_create_ensures uuid categoria_in s :
  let s1 := snd (categorias.create_endpoint uuid categoria_in s) in
  (exists c, In c (categorias s1)
             /\ CategoriaModel.nome c = CategoriaIn.nome categoria_in)
  /\ centros_treinamento s1 = centros_treinamento s
  /\ atletas s1 = atletas s.
Proof.
  destruct (has (fun c => String.eqb (CategoriaModel.nome c)
                                     (CategoriaIn.nome categoria_in))
                (categorias s)) eqn:E.
  - apply has_true in E as (c & Hc & Ec). apply String.eqb_eq in Ec.
    rewrite categorias_create_taken; [|now exists c].
    simpl. split; [now exists c | split; reflexivity].
  - rewrite has_false in E. rewrite create_new_nome.
    2:{ intros c Hc. apply String.eqb_neq. now apply E. }
    simpl. split; [|split; reflexivity].
    eexists. split; [apply in_or_app; right; now left | reflexivity].
Qed.

Lemma centro_treinamento_create_ensures uuid centro_in s :
  let s1 := snd (centro_treinamento.create_endpoint uuid centro_in s) in
  (exists c, In c (centros_treinamento s1)
             /\ CentroTreinamentoModel.nome c
                = CentroTreinamentoIn.nome centro_in)
  /\ categorias s1 = categorias s
  /\ atletas s1 = atletas s.
Proof.
  destruct (has (fun c => String.eqb (CentroTreinamentoModel.nome c)
                                     (CentroTreinamentoIn.nome centro_in))
                (centros_treinamento s)) eqn:E.
  - apply has_true in E as (c & Hc & Ec). apply String.eqb_eq in Ec.
    rewrite centro_treinamento_create_duplicate_nome; [|now exists c].
    simpl. split; [now exists c | split; reflexivity].
  - rewrite has_false in E. rewrite centro_treinamento_create_new_nome.
    2:{ intros c Hc. apply String.eqb_neq. now apply E. }
    simpl. split; [|split; reflexivity].
    eexists. split; [apply in_or_app; right; now left | reflexivity].
Qed.

(** X5: creating a category twice with the same [nome]: whatever the first
    call answers, the second answers 303 with the [nome] in the message and
    leaves the store as the first call left it. *)
Theorem categorias_create_twice uuid uuid' categoria_in s :
  let s1 := snd (categorias.create_endpoint uuid categoria_in s) in
  exists detail,
    categorias.create_endpoint uuid' categoria_in s1
    = (Error HTTP_303_SEE_OTHER detail, s1)
    /\ includes (CategoriaIn.nome categoria_in) detail = true.
Proof.
  intros s1. eexists. split; [|apply includes_suffix].
  apply categorias_create_taken.
  apply (categorias_create_ensures uuid categoria_in s).
Qed.

(** X6: creating a training center whose [nome] a stored training center
    already has, whatever its address and owner, answers 303 with the [nome]
    in the message; the store is the one before the call, and a table with
    unique names holds one row of that [nome]. *)
Theorem centro_treinamento_create_duplicate uuid centro_in s :
  unique CentroTreinamentoModel.nome (centros_treinamento s) ->
  (exists c, In c (centros_treinamento s)
             /\ CentroTreinamentoModel.nome c
                = CentroTreinamentoIn.nome centro_in) ->
  exists detail,
    centro_treinamento.create_endpoint uuid centro_in s
    = (Error HTTP_303_SEE_OTHER detail, s)
    /\ includes (CentroTreinamentoIn.nome centro_in) detail = true
    /\ List.length
         (filter (fun c => String.eqb (CentroTreinamentoModel.nome c)
                                      (CentroTreinamentoIn.nome centro_in))
                 (centros_treinamento s))
       = 1%nat.
Proof.
  intros U (c & Hc & E). eexists. split; [|split].
  - apply centro_treinamento_create_duplicate_nome. now exists c.
  - apply includes_suffix.
  - rewrite <- E. apply unique_count; auto. apply String.eqb_eq.
Qed.

Lemma centro_treinamento_create_duplicate_witness :
  exists detail,
    centro_treinamento.create_endpoint generated_uuid
      (CentroTreinamentoIn.mk "CT King" "Av. Y, 100" "Paula") sample_store
    = (Error HTTP_303_SEE_OTHER detail, sample_store)
    /\ includes "CT King" detail = true
    /\ List.length
         (filter (fun c => String.eqb (CentroTreinamentoModel.nome c) "CT King")
                 (centros_treinamento sample_store))
       = 1%nat.
Proof.
  apply (centro_treinamento_create_duplicate generated_uuid
           (CentroTreinamentoIn.mk "CT King" "Av. Y, 100" "Paula")
           sample_store).
  - repeat constructor. simpl. tauto.
  - exists ct_king. split; [now left | reflexivity].
Defined.

(** X7: a category with a new [nome], created under an id no category has,
    is answered with 201 and the output shape of id and [nome]; it becomes the
    last row of the table, the other tables are untouched, and [get_by_id] of
    the id answers 200 with that row. *)
Theorem categorias_create_then_get_by_id uuid categoria_in s :
  (forall c, In c (categorias s) ->
     CategoriaModel.nome c <> CategoriaIn.nome categoria_in) ->
  (forall c, In c (categorias s) -> CategoriaModel.id c <> uuid) ->
  exists row s1,
    categorias.create_endpoint uuid categoria_in s
    = (Content HTTP_201_CREATED
         (CategoriaOut.mk uuid (CategoriaIn.nome categoria_in)),
       s1)
    /\ categorias s1 = (categorias s ++ [row])%list
    /\ centros_treinamento s1 = centros_treinamento s
    /\ atletas s1 = atletas s
    /\ categorias.get_by_id_endpoint uuid s1 = (Content HTTP_200_OK row, s1)
    /\ CategoriaOut_model_validate row
       = CategoriaOut.mk uuid (CategoriaIn.nome categoria_in).
Proof.
  intros Hn Hid. eexists. eexists.
  split; [now apply create_new_nome|].
  repeat split.
  unfold categorias.get_by_id_endpoint, categorias.get_by_id. run_handler.
  match goal with
  | |- context [first (filter ?p (?l ++ [?r]))] =>
      replace (first (filter p (l ++ [r]))) with (Some r); [reflexivity|]
  end.
  symmetry. apply first_filter_some. exists (categorias s), [].
  split; [reflexivity|]. split; [apply N.eqb_refl|].
  intros c Hc. apply N.eqb_neq. now apply Hid.
Qed.

Lemma categorias_create_then_get_by_id_witness :
  exists row s1,
    categorias.create_endpoint generated_uuid (CategoriaIn.mk "Elite")
      sample_store
    = (Content HTTP_201_CREATED (CategoriaOut.mk generated_uuid "Elite"), s1)
    /\ categorias s1 = [iniciante; row]
    /\ centros_treinamento s1 = [ct_king]
    /\ atletas s1 = [joao; maria]
    /\ categorias.get_by_id_endpoint generated_uuid s1
       = (Content HTTP_200_OK row, s1)
    /\ CategoriaOut_model_validate row = CategoriaOut.mk generated_uuid "Elite".
Proof.
  apply (categorias_create_then_get_by_id generated_uuid
           (CategoriaIn.mk "Elite") sample_store).
  - simpl. intros c [<-|[]]. discriminate.
  - simpl. intros c [<-|[]]. discriminate.
Defined.

(** X8: the same for a training center: a new [nome] under an id no training
    center has is answered with 201 and the four fields of the output shape,
    stored as the last row, and found by [get_by_id]. *)
Theorem centro_treinamento_create_then_get_by_id uuid centro_in s :
  (forall c, In c (centros_treinamento s) ->
     CentroTreinamentoModel.nome c <> CentroTreinamentoIn.nome centro_in) ->
  (forall c, In c (centros_treinamento s) ->
     CentroTreinamentoModel.id c <> uuid) ->
  let out :=
    CentroTreinamentoOut.mk uuid (CentroTreinamentoIn.nome centro_in)
      (CentroTreinamentoIn.endereco centro_in)
      (CentroTreinamentoIn.proprietario centro_in) in
  exists row s1,
    centro_treinamento.create_endpoint uuid centro_in s
    = (Content HTTP_201_CREATED out, s1)
    /\ centros_treinamento s1 = (centros_treinamento s ++ [row])%list
    /\ categorias s1 = categorias s
    /\ atletas s1 = atletas s
    /\ centro_treinamento.get_by_id_endpoint uuid s1
       = (Content HTTP_200_OK row, s1)
    /\ CentroTreinamentoOut_model_validate row = out.
Proof.
  intros Hn Hid out. eexists. eexists.
  split; [now apply centro_treinamento_create_new_nome|].
  repeat split.
  unfold centro_treinamento.get_by_id_endpoint, centro_treinamento.get_by_id.
  run_handler.
  match goal with
  | |- context [first (filter ?p (?l ++ [?r]))] =>
      replace (first (filter p (l ++ [r]))) with (Some r); [reflexivity|]
  end.
  symmetry. apply first_filter_some. exists (centros_treinamento s), [].
  split; [reflexivity|]. split; [apply N.eqb_refl|].
  intros c Hc. apply N.eqb_neq. now apply Hid.
Qed.

Lemma centro_treinamento_create_then_get_by_id_witness :
  exists row s1,
    centro_treinamento.create_endpoint generated_uuid ct_queen_in sample_store
    = (Content HTTP_201_CREATED
         (CentroTreinamentoOut.mk generated_uuid "CT Queen" "Av. Y, 100"
            "Paula"),
       s1)
    /\ centros_treinamento s1 = [ct_king; row]
    /\ categorias s1 = [iniciante]
    /\ atletas s1 = [joao; maria]
    /\ centro_treinamento.get_by_id_endpoint generated_uuid s1
       = (Content HTTP_200_OK row, s1)
    /\ CentroTreinamentoOut_model_validate row
       = CentroTreinamentoOut.mk generated_uuid "CT Queen" "Av. Y, 100" "Paula".
Proof.
  apply (centro_treinamento_create_then_get_by_id generated_uuid ct_queen_in
           sample_store).
  - simpl. intros c [<-|[]]. discriminate.
  - simpl. intros c [<-|[]]. discriminate.
Defined.

(** X9: once a category and a training center have been posted, with any
    outcome, an athlete that names the two and has a [cpf] no stored athlete
    has is created: 201, with the row added at the end of the table. *)
Theorem create_references_then_post
        uuid_c uuid_ct uuid utcnow categoria_in centro_in atleta_in s :
  CategoriaIn.nome categoria_in
  = CategoriaIn.nome (AtletaIn.categoria atleta_in) ->
  CentroTreinamentoIn.nome centro_in
  = CentroTreinamentoAtleta.nome (AtletaIn.centro_treinamento atleta_in) ->
  (forall a, In a (atletas s) -> AtletaModel.cpf a <> AtletaIn.cpf atleta_in) ->
  let s1 := snd (categorias.create_endpoint uuid_c categoria_in s) in
  let s2 := snd (centro_treinamento.create_endpoint uuid_ct centro_in s1) in
  exists row s3,
    atleta.post_endpoint uuid utcnow atleta_in s2
    = (Content HTTP_201_CREATED (created_out uuid utcnow atleta_in), s3)
    /\ atletas s3 = (atletas s ++ [row])%list
    /\ AtletaModel.id row = uuid
    /\ AtletaModel.cpf row = AtletaIn.cpf atleta_in.
Proof.
  intros Ec Ect Hcpf s1 s2.
  destruct (categorias_create_ensures uuid_c categoria_in s)
    as (Hc & _ & Ha1).
  destruct (centro_treinamento_create_ensures uuid_ct centro_in s1)
    as (Hct & Hc2 & Ha2).
  fold s1 in Hc, Ha1. fold s2 in Hct, Hc2, Ha2.
  destruct (post_created uuid utcnow atleta_in s2) as (c & ct & _ & _ & E).
  - rewrite Hc2, <- Ec. exact Hc.
  - rewrite <- Ect. exact Hct.
  - rewrite Ha2, Ha1. exact Hcpf.
  - rewrite E. eexists. eexists. split; [reflexivity|].
    simpl. rewrite Ha2, Ha1. repeat split.
Qed.

Lemma create_references_then_post_witness :
  exists row s3,
    atleta.post_endpoint generated_uuid request_time ana_in
      (snd (centro_treinamento.create_endpoint
              (CentroTreinamentoModel.id ct_king)
              (CentroTreinamentoIn.mk "CT King" "Rua X, Q02" "Marcos")
              (snd (categorias.create_endpoint (CategoriaModel.id iniciante)
                      (CategoriaIn.mk "Iniciante") empty_store))))
    = (Content HTTP_201_CREATED
         (created_out generated_uuid request_time ana_in), s3)
    /\ atletas s3 = [row]
    /\ AtletaModel.id row = generated_uuid
    /\ AtletaModel.cpf row = "11122233344".
Proof.
  apply (create_references_then_post (CategoriaModel.id iniciante)
           (CentroTreinamentoModel.id ct_king) generated_uuid request_time
           (CategoriaIn.mk "Iniciante")
           (CentroTreinamentoIn.mk "CT King" "Rua X, Q02" "Marcos")
           ana_in empty_store).
  - reflexivity.
  - reflexivity.
  - intros a [].
Defined.

(** ** Patching and deleting: the runs of the two handlers *)

Lemma partial_update_not_found id up s :
  (forall a, In a (atletas s) -> AtletaModel.id a <> id) ->
  atleta.partial_update_endpoint id up s
  = (Error HTTP_404_NOT_FOUND
       ("Atleta não encontrada com o id: " ++ str_uuid id), s).
Proof.
  intros H. unfold atleta.partial_update_endpoint, atleta.partial_update.
  run_handler.
  replace (first (filter _ (atletas s))) with (@None AtletaModel.t);
    [reflexivity|].
  symmetry. apply first_filter_none. intros a Ha. apply N.eqb_neq.
  now apply H.
Qed.

Lemma delete_not_found id s :
  (forall a, In a (atletas s) -> AtletaModel.id a <> id) ->
  atleta.delete_endpoint id s
  = (Error HTTP_404_NOT_FOUND
       ("Atleta não encontrada com o id: " ++ str_uuid id), s).
Proof.
  intros H. unfold atleta.delete_endpoint, atleta.delete. run_handler.
  replace (first (filter _ (atletas s))) with (@None AtletaModel.t);
    [reflexivity|].
  symmetry. apply first_filter_none. intros a Ha. apply N.eqb_neq.
  now apply H.
Qed.

(** After the commit of [r'], which keeps the key and the id of [r], the
    first row with the id of [r] is [r'], and so is the first row with its
    key. *)
Lemma first_id_overwrite (rows : list AtletaModel.t) (r r' : AtletaModel.t) id :
  first (filter (fun a => N.eqb (AtletaModel.id a) id) rows) = Some r ->
  AtletaModel.pk_id r' = AtletaModel.pk_id r ->
  AtletaModel.id r' = id ->
  first (filter (fun a => N.eqb (AtletaModel.id a) id) (overwrite r' rows))
  = Some r'.
Proof.
  intros F Epk Eid. unfold overwrite.
  induction rows as [|a rows IH]; simpl in *; [discriminate|].
  destruct (N.eqb (AtletaModel.id a) id) eqn:Ea.
  - injection F as ->. rewrite Epk, Z.eqb_refl. simpl.
    rewrite Eid, N.eqb_refl. reflexivity.
  - destruct (Z.eqb (AtletaModel.pk_id a) (AtletaModel.pk_id r')); simpl.
    + rewrite Eid, N.eqb_refl. reflexivity.
    + rewrite Ea. now apply IH.
Qed.

Lemma first_pk_overwrite (rows : list AtletaModel.t) (r r' : AtletaModel.t) :
  In r rows ->
  AtletaModel.pk_id r' = AtletaModel.pk_id r ->
  first (filter (fun a => Z.eqb (AtletaModel.pk_id a) (AtletaModel.pk_id r'))
                (overwrite r' rows))
  = Some r'.
Proof.
  intros Hr Epk. unfold overwrite.
  induction rows as [|a rows IH]; simpl in *; [contradiction|].
  destruct (Z.eqb (AtletaModel.pk_id a) (AtletaModel.pk_id r')) eqn:Ea; simpl.
  - rewrite Z.eqb_refl. reflexivity.
  - rewrite Ea. apply IH. destruct Hr as [->|Hr]; [|exact Hr].
    rewrite Epk, Z.eqb_refl in Ea. discriminate.
Qed.

Lemma partial_update_run id up s r :
  first (filter (fun a => N.eqb (AtletaModel.id a) id) (atletas s)) = Some r ->
  atleta.partial_update_endpoint id up s
  = (Content HTTP_200_OK (fold_left setattr (model_dump_exclude_unset up) r),
     mkStore (categorias s) (centros_treinamento s)
       (overwrite (fold_left setattr (model_dump_exclude_unset up) r)
          (atletas s))).
Proof.
  intros F. unfold atleta.partial_update_endpoint, atleta.partial_update.
  run_handler. rewrite F. unfold commit_atleta, refresh.
  cbn [fst snd atletas categorias centros_treinamento].
  set (r' := fold_left setattr (model_dump_exclude_unset up) r).
  assert (Epk : AtletaModel.pk_id r' = AtletaModel.pk_id r).
  { unfold r'. now rewrite setattr_items. }
  apply first_filter_some, first_match_In in F as [Hr _].
  pose proof (first_pk_overwrite (atletas s) r r' Hr Epk) as R.
  unfold overwrite in *. rewrite R. reflexivity.
Qed.

Lemma delete_run id s r :
  first (filter (fun a => N.eqb (AtletaModel.id a) id) (atletas s)) = Some r ->
  atleta.delete_endpoint id s
  = (Content HTTP_204_NO_CONTENT tt,
     mkStore (categorias s) (centros_treinamento s)
       (filter (fun a => negb (Z.eqb (AtletaModel.pk_id a)
                                     (AtletaModel.pk_id r)))
               (atletas s))).
Proof.
  intros F. unfold atleta.delete_endpoint, atleta.delete. run_handler.
  rewrite F. reflexivity.
Qed.

Lemma setattr_twice (up : AtletaUpdate.t) (r : AtletaModel.t) :
  fold_left setattr (model_dump_exclude_unset up)
    (fold_left setattr (model_dump_exclude_unset up) r)
  = fold_left setattr (model_dump_exclude_unset up) r.
Proof.
  rewrite !setattr_items. simpl.
  destruct up as [[?|] [?|] [?|] [?|] [?|]]; reflexivity.
Qed.

Lemma overwrite_twice (r' : AtletaModel.t) (rows : list AtletaModel.t) :
  overwrite r' (overwrite r' rows) = overwrite r' rows.
Proof.
  unfold overwrite. rewrite map_map. apply map_ext. intros a.
  destruct (Z.eqb (AtletaModel.pk_id a) (AtletaModel.pk_id r')) eqn:E.
  - now rewrite Z.eqb_refl.
  - now rewrite E.
Qed.

Lemma overwrite_same (r : AtletaModel.t) (rows : list AtletaModel.t) :
  unique AtletaModel.pk_id rows -> In r rows -> overwrite r rows = rows.
Proof.
  intros U Hr. unfold overwrite. rewrite <- (map_id rows) at 2.
  apply map_ext_in. intros a Ha.
  destruct (Z.eqb (AtletaModel.pk_id a) (AtletaModel.pk_id r)) eqn:E;
    [|reflexivity].
  apply Z.eqb_eq in E. symmetry.
  now apply (unique_inj AtletaModel.pk_id rows).
Qed.

Lemma filter_all {A} (p : A -> bool) (l : list A) :
  (forall x, In x l -> p x = true) -> filter p l = l.
Proof.
  induction l as [|x l IH]; simpl; [reflexivity|]. intros H.
  rewrite (H x (or_introl eq_refl)). f_equal. apply IH.
  intros y Hy. apply H. now right.
Qed.

(** X10: patching an id no athlete has answers 404 with the id in the
    message and leaves the store as it was. *)
Theorem partial_update_unknown_id id up s :
  (forall a, In a (atletas s) -> AtletaModel.id a <> id) ->
  exists detail,
    atleta.partial_update_endpoint id up s
    = (Error HTTP_404_NOT_FOUND detail, s)
    /\ includes (str_uuid id) detail = true.
Proof.
  intros H. eexists. split; [now apply partial_update_not_found|].
  apply includes_suffix.
Qed.

Lemma partial_update_unknown_id_witness :
  exists detail,
    atleta.partial_update_endpoint unknown_uuid
      (AtletaUpdate.mk (Some "Ana") None None None None) sample_store
    = (Error HTTP_404_NOT_FOUND detail, sample_store)
    /\ includes (str_uuid unknown_uuid) detail = true.
Proof.
  apply (partial_update_unknown_id unknown_uuid
           (AtletaUpdate.mk (Some "Ana") None None None None) sample_store).
  simpl. intros a [<-|[<-|[]]]; discriminate.
Defined.

(** X11: deleting an id no athlete has answers 404 with the id in the
    message and leaves the store as it was. *)
Theorem delete_unknown_id id s :
  (forall a, In a (atletas s) -> AtletaModel.id a <> id) ->
  exists detail,
    atleta.delete_endpoint id s = (Error HTTP_404_NOT_FOUND detail, s)
    /\ includes (str_uuid id) detail = true.
Proof.
  intros H. eexists. split; [now apply delete_not_found|].
  apply includes_suffix.
Qed.

Lemma delete_unknown_id_witness :
  exists detail,
    atleta.delete_endpoint unknown_uuid sample_store
    = (Error HTTP_404_NOT_FOUND detail, sample_store)
    /\ includes (str_uuid unknown_uuid) detail = true.
Proof.
  apply (delete_unknown_id unknown_uuid sample_store).
  simpl. intros a [<-|[<-|[]]]; discriminate.
Defined.

(** X12: after a patch of a stored athlete, [get_by_id] of the same id
    answers 200 with the row the patch returned. *)
Theorem partial_update_then_get_by_id id up s :
  (exists a, In a (atletas s) /\ AtletaModel.id a = id) ->
  exists r' s1,
    atleta.partial_update_endpoint id up s = (Content HTTP_200_OK r', s1)
    /\ atleta.get_by_id_endpoint id s1 = (Content HTTP_200_OK r', s1)
    /\ AtletaModel.id r' = id.
Proof.
  intros (a & Ha & Ea).
  destruct (first_filter_found (fun a => N.eqb (AtletaModel.id a) id)
              (atletas s)) as [r F].
  { exists a. split; [exact Ha | now apply N.eqb_eq]. }
  pose proof F as Fm.
  apply first_filter_some, first_match_In in Fm as [_ Eid].
  apply N.eqb_eq in Eid.
  set (r' := fold_left setattr (model_dump_exclude_unset up) r).
  assert (Er : AtletaModel.pk_id r' = AtletaModel.pk_id r
               /\ AtletaModel.id r' = id).
  { unfold r'. rewrite setattr_items. now split. }
  destruct Er as [Epk Eid'].
  exists r', (mkStore (categorias s) (centros_treinamento s)
                (overwrite r' (atletas s))).
  split; [exact (partial_update_run id up s r F)|].
  split; [|exact Eid'].
  unfold atleta.get_by_id_endpoint, atleta.get_by_id. run_handler.
  now rewrite (first_id_overwrite (atletas s) r r' id F Epk Eid').
Qed.

Lemma partial_update_then_get_by_id_witness :
  exists r' s1,
    atleta.partial_update_endpoint (AtletaModel.id joao)
      (AtletaUpdate.mk (Some "Joao Pedro") (Some 26) None None None)
      homonyms_store
    = (Content HTTP_200_OK r', s1)
    /\ atleta.get_by_id_endpoint (AtletaModel.id joao) s1
       = (Content HTTP_200_OK r', s1)
    /\ AtletaModel.id r' = AtletaModel.id joao.
Proof.
  apply (partial_update_then_get_by_id (AtletaModel.id joao)
           (AtletaUpdate.mk (Some "Joao Pedro") (Some 26) None None None)
           homonyms_store).
  exists joao. split; [now left | reflexivity].
Defined.

(** X13: a patch is idempotent: sent a second time to the store the first
    call left, it gets the same answer and leaves that store as it is. *)
Theorem partial_update_idempotent id up s :
  atleta.partial_update_endpoint id up
    (snd (atleta.partial_update_endpoint id up s))
  = atleta.partial_update_endpoint id up s.
Proof.
  destruct (first (filter (fun a => N.eqb (AtletaModel.id a) id) (atletas s)))
    as [r|] eqn:F.
  - set (r' := fold_left setattr (model_dump_exclude_unset up) r).
    assert (Er : AtletaModel.pk_id r' = AtletaModel.pk_id r
                 /\ AtletaModel.id r' = id).
    { unfold r'. rewrite setattr_items. split; [reflexivity|].
      apply first_filter_some, first_match_In in F as [_ E].
      now apply N.eqb_eq in E. }
    destruct Er as [Epk Eid].
    rewrite (partial_update_run id up s r F). fold r'.
    cbn [snd].
    rewrite (partial_update_run id up _ r').
    + unfold r'. rewrite setattr_twice. fold r'.
      cbn [categorias centros_treinamento atletas].
      now rewrite overwrite_twice.
    + cbn [atletas]. now apply (first_id_overwrite (atletas s) r r' id).
  - rewrite first_filter_none in F.
    assert (H : forall a, In a (atletas s) -> AtletaModel.id a <> id).
    { intros a Ha. apply N.eqb_neq. now apply F. }
    rewrite (partial_update_not_found id up s H). cbn [snd].
    now apply partial_update_not_found.
Qed.

(** X14: a patch that sets no field answers 200 with the stored row and
    leaves the store as it was. *)
Theorem partial_update_empty_patch id s :
  unique AtletaModel.pk_id (atletas s) ->
  (exists a, In a (atletas s) /\ AtletaModel.id a = id) ->
  exists r,
    first_match (fun a => N.eqb (AtletaModel.id a) id) (atletas s) r
    /\ atleta.partial_update_endpoint id empty_patch s
       = (Content HTTP_200_OK r, s).
Proof.
  intros U (a & Ha & Ea).
  destruct (first_filter_found (fun a => N.eqb (AtletaModel.id a) id)
              (atletas s)) as [r F].
  { exists a. split; [exact Ha | now apply N.eqb_eq]. }
  exists r. split; [now apply first_filter_some|].
  rewrite (partial_update_run id empty_patch s r F). simpl.
  apply first_filter_some, first_match_In in F as [Hr _].
  rewrite (overwrite_same r (atletas s) U Hr). now destruct s.
Qed.

Lemma partial_update_empty_patch_witness :
  exists r,
    first_match (fun a => N.eqb (AtletaModel.id a) (AtletaModel.id maria))
                (atletas sample_store) r
    /\ atleta.partial_update_endpoint (AtletaModel.id maria) empty_patch
         sample_store
       = (Content HTTP_200_OK r, sample_store).
Proof.
  apply (partial_update_empty_patch (AtletaModel.id maria) sample_store).
  - repeat constructor; simpl; intuition discriminate.
  - exists maria. split; [right; now left | reflexivity].
Defined.

(** X15: deleting a stored athlete removes its row and nothing else: the rows
    before and after it keep their order, and the categories and the training
    centers are untouched. *)
Theorem delete_frame id s :
  unique AtletaModel.pk_id (atletas s) ->
  (exists a, In a (atletas s) /\ AtletaModel.id a = id) ->
  exists r before after,
    atletas s = (before ++ r :: after)%list
    /\ AtletaModel.id r = id
    /\ atleta.delete_endpoint id s
       = (Content HTTP_204_NO_CONTENT tt,
          mkStore (categorias s) (centros_treinamento s) (before ++ after)).
Proof.
  intros U (a & Ha & Ea).
  destruct (first_filter_found (fun a => N.eqb (AtletaModel.id a) id)
              (atletas s)) as [r F].
  { exists a. split; [exact Ha | now apply N.eqb_eq]. }
  pose proof F as Fm.
  apply first_filter_some in Fm as (before & after & Es & Eid & _).
  apply N.eqb_eq in Eid.
  exists r, before, after. split; [exact Es|]. split; [exact Eid|].
  rewrite (delete_run id s r F). f_equal. f_equal.
  unfold unique in U. rewrite Es in U |- *. rewrite map_app in U. simpl in U.
  apply NoDup_remove_2 in U.
  rewrite filter_app. simpl. rewrite Z.eqb_refl. simpl.
  f_equal; apply filter_all; intros x Hx; apply negb_true_iff, Z.eqb_neq;
    intros E; apply U, in_or_app; [left|right]; rewrite <- E; now apply in_map.
Qed.

Lemma delete_frame_witness :
  exists r before after,
    atletas homonyms_store = (before ++ r :: after)%list
    /\ AtletaModel.id r = AtletaModel.id maria
    /\ atleta.delete_endpoint (AtletaModel.id maria) homonyms_store
       = (Content HTTP_204_NO_CONTENT tt,
          mkStore [iniciante] [ct_king] (before ++ after)).
Proof.
  apply (delete_frame (AtletaModel.id maria) homonyms_store).
  - repeat constructor; simpl; intuition discriminate.
  - exists maria. split; [right; now left | reflexivity].
Defined.

(** X16: deleting the same athlete twice: the first call answers 204, the
    second 404 with the id in the message, and the second leaves the store as
    the first left it. *)
Theorem delete_twice id s :
  unique AtletaModel.id (atletas s) ->
  (exists a, In a (atletas s) /\ AtletaModel.id a = id) ->
  exists s1 detail,
    atleta.delete_endpoint id s = (Content HTTP_204_NO_CONTENT tt, s1)
    /\ atleta.delete_endpoint id s1 = (Error HTTP_404_NOT_FOUND detail, s1)
    /\ includes (str_uuid id) detail = true.
Proof.
  intros U (a & Ha & Ea).
  destruct (first_filter_found (fun a => N.eqb (AtletaModel.id a) id)
              (atletas s)) as [r F].
  { exists a. split; [exact Ha | now apply N.eqb_eq]. }
  pose proof F as Fm.
  apply first_filter_some, first_match_In in Fm as [Hr Eid].
  apply N.eqb_eq in Eid.
  eexists. eexists. split; [exact (delete_run id s r F)|].
  split; [|apply includes_suffix].
  apply delete_not_found. simpl. intros x Hx Ex.
  apply filter_In in Hx as [Hx Hpk].
  assert (x = r) as ->.
  { apply (unique_inj AtletaModel.id (atletas s)); auto. congruence. }
  rewrite Z.eqb_refl in Hpk. discriminate.
Qed.

Lemma delete_twice_witness :
  exists s1 detail,
    atleta.delete_endpoint (AtletaModel.id maria) sample_store
    = (Content HTTP_204_NO_CONTENT tt, s1)
    /\ atleta.delete_endpoint (AtletaModel.id maria) s1
       = (Error HTTP_404_NOT_FOUND detail, s1)
    /\ includes (str_uuid (AtletaModel.id maria)) detail = true.
Proof.
  apply (delete_twice (AtletaModel.id maria) sample_store).
  - repeat constructor; simpl; intuition discriminate.
  - exists maria. split; [right; now left | reflexivity].
Defined.

(** X17: deleting an athlete frees its [cpf]: in a table with unique [cpf],
    once the row [delete] finds is gone, an input with that [cpf] whose
    category and training center are stored is created with 201. *)
Theorem delete_then_post_same_cpf id uuid utcnow atleta_in s r :
  unique AtletaModel.cpf (atletas s) ->
  first_match (fun a => N.eqb (AtletaModel.id a) id) (atletas s) r ->
  AtletaIn.cpf atleta_in = AtletaModel.cpf r ->
  (exists c, In c (categorias s)
     /\ CategoriaModel.nome c = CategoriaIn.nome (AtletaIn.categoria atleta_in)) ->
  (exists c, In c (centros_treinamento s)
     /\ CentroTreinamentoModel.nome c
        = CentroTreinamentoAtleta.nome (AtletaIn.centro_treinamento atleta_in)) ->
  let s1 := snd (atleta.delete_endpoint id s) in
  exists row s2,
    atleta.post_endpoint uuid utcnow atleta_in s1
    = (Content HTTP_201_CREATED (created_out uuid utcnow atleta_in), s2)
    /\ atletas s2 = (atletas s1 ++ [row])%list
    /\ AtletaModel.cpf row = AtletaModel.cpf r.
Proof.
  intros U Fm Ecpf Hcat Hct s1.
  pose proof Fm as F. apply first_filter_some in F.
  apply first_match_In in Fm as [Hr _].
  assert (Es1 : s1 = mkStore (categorias s) (centros_treinamento s)
                       (filter (fun a => negb (Z.eqb (AtletaModel.pk_id a)
                                                     (AtletaModel.pk_id r)))
                               (atletas s))).
  { unfold s1. now rewrite (delete_run id s r F). }
  destruct (post_created uuid utcnow atleta_in s1) as (c & ct & _ & _ & E).
  - now rewrite Es1.
  - now rewrite Es1.
  - rewrite Es1. simpl. intros x Hx Ex.
    apply filter_In in Hx as [Hx Hpk].
    assert (x = r) as ->.
    { apply (unique_inj AtletaModel.cpf (atletas s)); auto. congruence. }
    rewrite Z.eqb_refl in Hpk. discriminate.
  - rewrite E. eexists. eexists. split; [reflexivity|].
    split; [reflexivity|]. simpl. exact Ecpf.
Qed.

Lemma delete_then_post_same_cpf_witness :
  exists row s2,
    atleta.post_endpoint generated_uuid request_time maria_in
      (snd (atleta.delete_endpoint (AtletaModel.id maria) sample_store))
    = (Content HTTP_201_CREATED
         (created_out generated_uuid request_time maria_in), s2)
    /\ atletas s2
       = (atletas (snd (atleta.delete_endpoint (AtletaModel.id maria)
                          sample_store))
            ++ [row])%list
    /\ AtletaModel.cpf row = "98765432100".
Proof.
  apply (delete_then_post_same_cpf (AtletaModel.id maria) generated_uuid
           request_time maria_in sample_store maria).
  - repeat constructor; simpl; intuition discriminate.
  - exists [joao], []. split; [reflexivity|]. split; [reflexivity|].
    intros x [<-|[]]. reflexivity.
  - reflexivity.
  - exists iniciante. split; [now left | reflexivity].
  - exists ct_king. split; [now left | reflexivity].
Defined.

(** X18: every stored athlete is found by its own keys: [get_by_id] of its id
    answers 200 with that very row when the ids of the table are distinct,
    and [get_by_cpf] of its [cpf] does when the [cpf] column is unique. *)
Theorem stored_athlete_lookups s a :
  In a (atletas s) ->
  (unique AtletaModel.id (atletas s) ->
   atleta.get_by_id_endpoint (AtletaModel.id a) s = (Content HTTP_200_OK a, s))
  /\ (unique AtletaModel.cpf (atletas s) ->
      atleta.get_by_cpf_endpoint (AtletaModel.cpf a) s
      = (Content HTTP_200_OK a, s)).
Proof.
  intros Ha. split; intros U.
  - unfold atleta.get_by_id_endpoint, atleta.get_by_id. run_handler.
    now rewrite (unique_first AtletaModel.id N.eqb N.eqb_eq _ _ U Ha).
  - unfold atleta.get_by_cpf_endpoint, atleta.get_by_cpf. run_handler.
    now rewrite (unique_first AtletaModel.cpf String.eqb String.eqb_eq _ _ U Ha).
Qed.

Lemma stored_athlete_lookups_witness :
  atleta.get_by_id_endpoint (AtletaModel.id joao_silva) homonyms_store
  = (Content HTTP_200_OK joao_silva, homonyms_store)
  /\ atleta.get_by_cpf_endpoint "55566677788" homonyms_store
     = (Content HTTP_200_OK joao_silva, homonyms_store).
Proof.
  destruct (stored_athlete_lookups homonyms_store joao_silva) as [Hid Hcpf].
  - simpl. tauto.
  - split.
    + apply Hid. repeat constructor; simpl; intuition discriminate.
    + apply Hcpf. repeat constructor; simpl; intuition discriminate.
Defined.

Lemma sample_store_is_reachable : reachable sample_store.
Proof.
  rewrite <- sample_store_reachable.
  repeat (apply reachable_serve; [|simpl; try exact I]).
  - apply reachable_empty.
  - intros a [].
  - intros a [<-|[]]. discriminate.
Defined.

Lemma reachable_constraints_witness :
  constraints sample_store /\ unique AtletaModel.id (atletas sample_store).
Proof.
  apply (reachable_constraints sample_store). exact sample_store_is_reachable.
Defined.

(** ** The athlete listing *)

Lemma for_each_related {A B} (f : A -> M B) (R : A -> B -> Prop)
      (l : list A) (s : Store) :
  (forall x, In x l -> exists y, f x s = (Return y, s) /\ R x y) ->
  exists ys, for_each f l s = (Return ys, s) /\ Forall2 R l ys.
Proof.
  induction l as [|x l IH]; intros H.
  - exists []. split; [reflexivity | constructor].
  - destruct (H x (or_introl eq_refl)) as (y & Hy & Rxy).
    destruct IH as (ys & Hys & Hall).
    { intros z Hz. apply H. now right. }
    exists (y :: ys). split.
    + simpl. unfold bind, ret. now rewrite Hy, Hys.
    + now constructor.
Qed.

Lemma model_validate_summary (s : Store) (a : AtletaModel.t) :
  foreign_keys s -> In a (atletas s) ->
  exists d,
    AtletaGetAllDetails_model_validate a s = (Return d, s) /\ summary_of s a d.
Proof.
  intros FK Ha. destruct (FK a Ha) as [(c & Hc & Ec) (ct & Hct & Ect)].
  unfold AtletaGetAllDetails_model_validate, atleta_categoria,
    atleta_centro_treinamento.
  destruct (first_filter_found
              (fun c => Z.eqb (CategoriaModel.pk_id c)
                              (AtletaModel.categoria_id a))
              (categorias s)) as [c' Fc].
  { exists c. split; [exact Hc | now apply Z.eqb_eq]. }
  destruct (first_filter_found
              (fun c => Z.eqb (CentroTreinamentoModel.pk_id c)
                              (AtletaModel.centro_treinamento_id a))
              (centros_treinamento s)) as [ct' Fct].
  { exists ct. split; [exact Hct | now apply Z.eqb_eq]. }
  rewrite Fc, Fct.
  apply first_filter_some, first_match_In in Fc as [Hc' Ec'].
  apply first_filter_some, first_match_In in Fct as [Hct' Ect'].
  apply Z.eqb_eq in Ec', Ect'.
  eexists. split; [reflexivity|].
  split; [reflexivity|]. split.
  - exists c'. repeat split; auto.
  - exists ct'. repeat split; auto.
Qed.

(** X20: the athlete listing hands to the pagination one summary per athlete
    row, in the order of the table: each carries the athlete's [nome] and the
    names of the category and the training center the row refers to. *)
Theorem get_all_summaries (params : Params) (s : Store) :
  foreign_keys s ->
  exists details,
    atleta.get_all_endpoint params s
    = (Content HTTP_200_OK (paginate params details), s)
    /\ Forall2 (summary_of s) (atletas s) details.
Proof.
  intros FK.
  destruct (for_each_related AtletaGetAllDetails_model_validate (summary_of s)
              (atletas s) s) as (ds & Hds & Hall).
  { intros a Ha. now apply model_validate_summary. }
  exists ds. split; [|exact Hall].
  unfold atleta.get_all_endpoint, atleta.get_all. run_handler.
  unfold all. now rewrite Hds.
Qed.

Lemma get_all_summaries_witness :
  exists details,
    atleta.get_all_endpoint (mkParams 1 50) sample_store
    = (Content HTTP_200_OK (paginate (mkParams 1 50) details), sample_store)
    /\ Forall2 (summary_of sample_store) [joao; maria] details.
Proof.
  apply (get_all_summaries (mkParams 1 50) sample_store).
  intros a Ha. split.
  - exists iniciante. split; [now left|].
    simpl in Ha. destruct Ha as [<-|[<-|[]]]; reflexivity.
  - exists ct_king. split; [now left|].
    simpl in Ha. destruct Ha as [<-|[<-|[]]]; reflexivity.
Defined.
